(** * Terramate cloud test server: stack health classification and handlers

    A shallow embedding of the HTTP handlers of package [testserver]
    (GetStacks, PutStack, GetDeploymentLogs, GetDeploymentLogsEvents,
    PostDeploymentLogs) and of the state table they validate stored stacks
    against, followed by the properties the design document states about
    them. *)

From Stdlib Require Import ZArith List String Ascii Bool Lia.
From Stdlib Require Import Sorting.Sorted Sorting.Permutation.
Import ListNotations.

Local Open Scope string_scope.
Local Open Scope list_scope.
Local Open Scope Z_scope.

(** ** Status enumerations

    Packages [cloud/drift], [cloud/deployment] and [cloud/stack] declare
    the three status types; the handlers only name their constants. *)

Module drift.

(** Modelled from the spec: the type [drift.Status], declared in package
    [cloud/drift]; section 3 gives DriftStatus in {OK, Drifted, Failed,
    Unknown}. *)
Inductive Status : Type := Unknown | OK | Drifted | Failed.

Definition eqb (a b : Status) : bool :=
  match a, b with
  | Unknown, Unknown | OK, OK | Drifted, Drifted | Failed, Failed => true
  | _, _ => false
  end.

End drift.

Module deployment.

(** Modelled from the spec: the type [deployment.Status], declared in
    package [cloud/deployment]; section 3 gives DeploymentStatus in {OK,
    Failed, Canceled, Pending, Running, Unknown}. *)
Inductive Status : Type := OK | Failed | Canceled | Pending | Running | Unknown.

Definition eqb (a b : Status) : bool :=
  match a, b with
  | OK, OK | Failed, Failed | Canceled, Canceled
  | Pending, Pending | Running, Running | Unknown, Unknown => true
  | _, _ => false
  end.

End deployment.

Module stack.

(** Modelled from the spec: the type [stack.Status], declared in package
    [cloud/stack]; section 3 gives Status in {OK, Failed, Drifted,
    Unknown}.  [Unrecognized] is the sentinel GetStacks tests the parsed
    filter against. *)
Inductive Status : Type := OK | Failed | Drifted | Unknown | Unrecognized.

Definition eqb (a b : Status) : bool :=
  match a, b with
  | OK, OK | Failed, Failed | Drifted, Drifted
  | Unknown, Unknown | Unrecognized, Unrecognized => true
  | _, _ => false
  end.

(** Modelled from the spec: [stack.FilterStatus], a bitmask over statuses
    (section 4.4).  The conversion [stack.FilterStatus(s)] of a status is
    its bit.  The bit positions are those of the constant declarations in
    package [cloud/stack]; nothing below depends on them beyond distinct
    statuses having distinct single bits ([FilterStatus_land]). *)
Definition FilterStatus_t : Type := Z.

Definition bit (s : Status) : Z :=
  match s with
  | OK => 0
  | Unknown => 1
  | Drifted => 2
  | Failed => 3
  | Unrecognized => 4
  end.

Definition FilterStatus (s : Status) : FilterStatus_t := Z.shiftl 1 (bit s).

(** Modelled from the spec: "unhealthy" = {Failed, Drifted}, "healthy" =
    {OK}; [NoFilter] is the empty mask. *)
Definition UnhealthyFilter : FilterStatus_t :=
  Z.lor (FilterStatus Drifted) (FilterStatus Failed).
Definition HealthyFilter : FilterStatus_t := FilterStatus OK.
Definition NoFilter : FilterStatus_t := 0.

(** Modelled from the spec: the method [FilterStatus.Is], membership of a
    status in a filter mask. *)
Definition Is (f : FilterStatus_t) (s : Status) : bool :=
  negb (Z.land f (FilterStatus s) =? 0).

(** Modelled from the spec: [stack.NewStatusFilter].  The two convenience
    terms expand to their masks; any other token is read as the name of a
    single status by [NewStatus] (the spelling of status names is not
    given, so [NewStatus] is a parameter), and a token that names none is
    the [Unrecognized] sentinel. *)
Definition NewStatusFilter (NewStatus : string -> Status) (str : string)
  : FilterStatus_t :=
  if String.eqb str "unhealthy" then UnhealthyFilter
  else if String.eqb str "healthy" then HealthyFilter
  else FilterStatus (NewStatus str).

End stack.

(** ** Go maps

    A map literal with constant keys has no duplicate key (the compiler
    rejects one), so an association list read front to back is the map.
    Indexing a missing key, or a nil map, gives "not ok". *)

Section GoMap.
Context {K V : Type} (keq : K -> K -> bool).

Fixpoint index (m : list (K * V)) (k : K) : option V :=
  match m with
  | [] => None
  | (k', v) :: rest => if keq k' k then Some v else index rest k
  end.

End GoMap.

(** [stateTable()]: drift status, then deployment status, to stack status. *)
Definition stateTable
  : list (drift.Status * list (deployment.Status * stack.Status)) :=
  [ (drift.Unknown,
      [ (deployment.OK, stack.OK);
        (deployment.Failed, stack.Failed);
        (deployment.Canceled, stack.Failed) ]);
    (drift.OK,
      [ (deployment.OK, stack.OK);
        (deployment.Failed, stack.OK);
        (deployment.Canceled, stack.OK) ]);
    (drift.Drifted,
      [ (deployment.OK, stack.Drifted);
        (deployment.Failed, stack.Failed);
        (deployment.Canceled, stack.Failed) ]);
    (drift.Failed,
      [ (deployment.OK, stack.OK);
        (deployment.Pending, stack.OK);
        (deployment.Running, stack.OK) ]) ].

(** The double index [stateTable()[d][p]] with its "comma ok" result: a
    missing row is a nil inner map, in which every key is missing. *)
Definition Classify (d : drift.Status) (p : deployment.Status)
  : option stack.Status :=
  match index drift.eqb stateTable d with
  | None => None
  | Some row => index deployment.eqb row p
  end.

(** ** Data of packages [cloud] and [cloudstore]

    Only the fields the handlers read or write are kept.  A field that has
    the name of its own record's type carries a trailing underscore. *)

Definition UUID : Type := string.
Definition Time : Type := option Z.

Module cloud.

Record Stack : Type := mkStack {
  Repository : string;
  MetaID : string
}.

Record StackResponse : Type := mkStackResponse {
  ID : Z;
  Stack_ : Stack;
  Status : stack.Status;
  DeploymentStatus : deployment.Status;
  DriftStatus : drift.Status;
  CreatedAt : Time;
  UpdatedAt : Time;
  SeenAt : Time
}.

Record StacksResponse : Type := mkStacksResponse {
  Stacks : list StackResponse
}.

Record DeploymentLog : Type := mkDeploymentLog {
  Line : Z;
  Channel : string;
  Timestamp : Time;
  Message : string
}.

Definition DeploymentLogs : Type := list DeploymentLog.

End cloud.

Module cloudstore.

Record StackState : Type := mkStackState {
  Status : stack.Status;
  DeploymentStatus : deployment.Status;
  DriftStatus : drift.Status;
  CreatedAt : Time;
  UpdatedAt : Time;
  SeenAt : Time
}.

Record Stack : Type := mkStack {
  Stack_ : cloud.Stack;
  State : StackState
}.

Record Org : Type := mkOrg {
  Stacks : list Stack
}.

(** The logs of one deployment of one stack of one organization. *)
Record LogKey : Type := mkLogKey {
  KeyOrg : UUID;
  KeyMetaID : string;
  KeyDeployment : UUID
}.

Definition LogKey_eqb (a b : LogKey) : bool :=
  String.eqb (KeyOrg a) (KeyOrg b)
  && String.eqb (KeyMetaID a) (KeyMetaID b)
  && String.eqb (KeyDeployment a) (KeyDeployment b).

Record Data : Type := mkData {
  Orgs : list (UUID * Org);
  Logs : list (LogKey * cloud.DeploymentLogs)
}.

End cloudstore.

(** ** Errors the handlers write *)

Inductive error : Type :=
| ErrInvalidStatus (filterStatusStr : string)
    (* errors.E("invalid status: %s", filterStatusStr) *)
| ErrStackNotFound
    (* errors.E("stack not found") *)
| ErrInvalidStackState
    (d : drift.Status) (p : deployment.Status) (s : stack.Status)
    (* invalidStackStateError *)
| ErrSyntax (s : string)
    (* strconv.ErrSyntax, from Atoi *)
| ErrRange (s : string)
    (* strconv.ErrRange, from Atoi *)
| ErrUnmarshal
    (* the error of json.Unmarshal *)
| ErrStore (msg : string).
    (* an error returned by a method of cloudstore.Data *)

Inductive Result (A : Type) : Type :=
| Ok (a : A)
| Err (e : error).
Arguments Ok {A} a.
Arguments Err {A} e.

Definition invalidStackStateError (st : cloudstore.Stack) : error :=
  ErrInvalidStackState
    (cloudstore.DriftStatus (cloudstore.State st))
    (cloudstore.DeploymentStatus (cloudstore.State st))
    (cloudstore.Status (cloudstore.State st)).

Definition validateStackStatus (s : cloudstore.Stack) : bool :=
  match Classify (cloudstore.DriftStatus (cloudstore.State s))
                 (cloudstore.DeploymentStatus (cloudstore.State s)) with
  | Some _ => true
  | None => false
  end.

(** ** [strconv.Atoi] (Go standard library, 64-bit [int])

    [Atoi] is [ParseInt(s, 10, 0)] (its fast path for short strings
    gives the same results): an optional sign, then [ParseUint] over the
    rest.  [ParseUint] reads the bytes from left to right and returns at
    the first byte that is no digit (syntax error, value 0) or at the
    first digit with which the number leaves the 64-bit unsigned range
    (range error, value [maxUint64]), whichever comes first.  [ParseInt]
    passes a syntax error on with the value 0, and gives the nearest
    bound of [int] with a range error for a magnitude out of range. *)

Definition digit (c : ascii) : option Z :=
  let n := Z.of_nat (nat_of_ascii c) in
  if (48 <=? n) && (n <=? 57) then Some (n - 48) else None.

Definition maxUint64 : Z := 2 ^ 64 - 1.

(** [strconv.ErrSyntax] and [strconv.ErrRange], the two causes of a
    [*NumError]. *)
Inductive NumErr : Type :=
| Syntax
| Range.

(** The loop of [ParseUint] for base 10 and 64 bits; [n] is the number
    read so far, and [cutoff = maxUint64 / 10 + 1] is the least [n] for
    which [n * 10] overflows. *)
Fixpoint ParseUint (s : string) (n : Z) : Z * option NumErr :=
  match s with
  | EmptyString => (n, None)
  | String c rest =>
      match digit c with
      | None => (0, Some Syntax)
      | Some d =>
          if maxUint64 / 10 + 1 <=? n then (maxUint64, Some Range)
          else
            let n1 := n * 10 + d in
            if maxUint64 <? n1 then (maxUint64, Some Range)
            else ParseUint rest n1
      end
  end.

Definition Atoi (s : string) : Z * option error :=
  let '(neg, body) :=
    match s with
    | String "-"%char rest => (true, rest)
    | String "+"%char rest => (false, rest)
    | _ => (false, s)
    end in
  match body with
  | EmptyString => (0, Some (ErrSyntax s))
  | _ =>
      match ParseUint body 0 with
      | (_, Some Syntax) => (0, Some (ErrSyntax s))
      | (un, _) =>
          let cutoff := 2 ^ 63 in
          if negb neg && (cutoff <=? un) then (cutoff - 1, Some (ErrRange s))
          else if neg && (cutoff <? un) then (- cutoff, Some (ErrRange s))
          else (if neg then - un else un, None)
      end
  end.

(** ** Requests and responses (package [net/http], [httprouter]) *)

Module http.

Definition StatusNoContent : Z := 204.
Definition StatusBadRequest : Z := 400.
Definition StatusNotFound : Z := 404.
Definition StatusInternalServerError : Z := 500.
Definition StatusOK : Z := 200.

(** [Body = None] stands for a body whose [io.ReadAll] fails. *)
Record Request : Type := mkRequest {
  Form : list (string * string);
  Body : option string
}.

(** [r.FormValue(key)]: the empty string when the key is absent. *)
Definition FormValue (r : Request) (key : string) : string :=
  match index String.eqb (Form r) key with
  | Some v => v
  | None => ""
  end.

(** What a handler writes to the response body, one entry per call of
    [writeString], [writeErr], [marshalWrite], [write] or [fmt.Fprintf].
    The four helpers are functions of package [testserver] that write
    their argument to the response.  [Flush] sends what was written and
    changes nothing here; [justClose] closes the request body. *)
Inductive Written : Type :=
| WString (s : string)
| WErr (e : error)
| WStacks (resp : cloud.StacksResponse)
| WLogs (logs : cloud.DeploymentLogs)
| WLogLine (l : cloud.DeploymentLog)   (* "%d [%s] %s %s\n" *)
| WPing.                               (* ".\n" *)

(** [Code = None] until the status line is written.  The first
    [WriteHeader] fixes the status; a later one is ignored; a write before
    any [WriteHeader] sends 200. *)
Record ResponseWriter : Type := mkResponseWriter {
  Code : option Z;
  Header : list (string * string);
  Out : list Written
}.

Definition newResponseWriter : ResponseWriter :=
  {| Code := None; Header := []; Out := [] |}.

End http.

Module httprouter.

Definition Params : Type := list (string * string).

(** [ps.ByName(name)]: the empty string when no parameter has the name. *)
Definition ByName (ps : Params) (name : string) : string :=
  match index String.eqb ps name with
  | Some v => v
  | None => ""
  end.

End httprouter.

(** ** The handler monad

    A handler runs over the response writer and the store it was given; a
    call of a store method is recorded.  [Returned] is a [return] in the
    middle of the handler, [Panicked] a run-time panic (an index out of
    range). *)

Inductive StoreCall : Type :=
| CallGetOrg (orguuid : UUID)
| CallUpsertStack (orguuid : UUID) (st : cloudstore.Stack)
| CallGetDeploymentLogs
    (orguuid : UUID) (metaID : string) (deploymentUUID : UUID) (fromLine : Z)
| CallInsertDeploymentLogs
    (orguuid : UUID) (metaID : string) (deploymentUUID : UUID)
    (logs : cloud.DeploymentLogs).

Record World : Type := mkWorld {
  w : http.ResponseWriter;
  store : cloudstore.Data;
  calls : list StoreCall
}.

Inductive Flow (A : Type) : Type :=
| Next (a : A)
| Returned
| Panicked.
Arguments Next {A} a.
Arguments Returned {A}.
Arguments Panicked {A}.

Definition Handler (A : Type) : Type := World -> Flow A * World.

Definition ret {A} (a : A) : Handler A := fun s => (Next a, s).

Definition bind {A B} (m : Handler A) (k : A -> Handler B) : Handler B :=
  fun s =>
    match m s with
    | (Next a, s') => k a s'
    | (Returned, s') => (Returned, s')
    | (Panicked, s') => (Panicked, s')
    end.

Definition Return {A} : Handler A := fun s => (Returned, s).
Definition panic {A} : Handler A := fun s => (Panicked, s).

Declare Scope handler_scope.
Delimit Scope handler_scope with handler.
Notation "x <- m ;; k" := (bind m (fun x => k))
  (at level 61, m at next level, right associativity) : handler_scope.
Notation "m ;; k" := (bind m (fun _ => k))
  (at level 61, right associativity) : handler_scope.
Local Open Scope handler_scope.

Definition setWriter (f : http.ResponseWriter -> http.ResponseWriter)
  : Handler unit :=
  fun s => (Next tt, {| w := f (w s); store := store s; calls := calls s |}).

Definition WriteHeader (code : Z) : Handler unit :=
  setWriter (fun rw =>
    {| http.Code := match http.Code rw with
                    | None => Some code
                    | Some c => Some c
                    end;
       http.Header := http.Header rw;
       http.Out := http.Out rw |}).

Definition write (x : http.Written) : Handler unit :=
  setWriter (fun rw =>
    {| http.Code := match http.Code rw with
                    | None => Some http.StatusOK
                    | Some c => Some c
                    end;
       http.Header := http.Header rw;
       http.Out := http.Out rw ++ [x] |}).

Definition writeString (s : string) : Handler unit := write (http.WString s).
Definition writeErr (e : error) : Handler unit := write (http.WErr e).

(** [w.Header().Set(k, v)] and [w.Header().Add(k, v)]. *)
Definition HeaderSet (k v : string) : Handler unit :=
  setWriter (fun rw =>
    {| http.Code := http.Code rw;
       http.Header :=
         filter (fun kv => negb (String.eqb (fst kv) k)) (http.Header rw)
         ++ [(k, v)];
       http.Out := http.Out rw |}).

Definition HeaderAdd (k v : string) : Handler unit :=
  setWriter (fun rw =>
    {| http.Code := http.Code rw;
       http.Header := http.Header rw ++ [(k, v)];
       http.Out := http.Out rw |}).

Definition record (c : StoreCall) : Handler unit :=
  fun s => (Next tt, {| w := w s; store := store s; calls := calls s ++ [c] |}).

Definition getStore : Handler cloudstore.Data := fun s => (Next (store s), s).

Definition putStore (d : cloudstore.Data) : Handler unit :=
  fun s => (Next tt, {| w := w s; store := d; calls := calls s |}).

(** A handler served on a fresh response writer. *)
Definition serve {A} (h : Handler A) (d : cloudstore.Data) : Flow A * World :=
  h {| w := http.newResponseWriter; store := d; calls := [] |}.

(** ** Methods of [cloudstore.Data] *)

Module store_model.

(** Modelled from the spec: [Data.GetOrg], the organization registered
    under an identity, if any. *)
Definition GetOrg (d : cloudstore.Data) (orguuid : UUID)
  : option cloudstore.Org :=
  index String.eqb (cloudstore.Orgs d) orguuid.

Definition sameStack (a b : cloudstore.Stack) : bool :=
  String.eqb (cloud.MetaID (cloudstore.Stack_ a))
             (cloud.MetaID (cloudstore.Stack_ b)).

(** The stacks after an upsert, and the position of the record. *)
Fixpoint upsert (st : cloudstore.Stack) (stacks : list cloudstore.Stack)
  (pos : Z) : list cloudstore.Stack * Z :=
  match stacks with
  | [] => ([st], pos)
  | s :: rest =>
      if sameStack s st then (st :: rest, pos)
      else let '(rest', id) := upsert st rest (pos + 1) in (s :: rest', id)
  end.

Fixpoint setOrg (orgs : list (UUID * cloudstore.Org)) (orguuid : UUID)
  (org : cloudstore.Org) : list (UUID * cloudstore.Org) :=
  match orgs with
  | [] => []
  | (k, o) :: rest =>
      if String.eqb k orguuid then (k, org) :: rest
      else (k, o) :: setOrg rest orguuid org
  end.

(** Modelled from the spec: [Data.UpsertStack] (section 6, "Upsert"):
    given an organization identity and a record, persists or updates it;
    absence of a matching prior record creates one.  A prior record
    matches when it has the same stack identifier. *)
Definition UpsertStack (d : cloudstore.Data) (orguuid : UUID)
  (st : cloudstore.Stack) : Result (Z * cloudstore.Data) :=
  match GetOrg d orguuid with
  | None => Err (ErrStore "organization not found")
  | Some org =>
      let '(stacks, id) := upsert st (cloudstore.Stacks org) 0 in
      Ok (id,
          {| cloudstore.Orgs :=
               setOrg (cloudstore.Orgs d) orguuid
                      {| cloudstore.Stacks := stacks |};
             cloudstore.Logs := cloudstore.Logs d |})
  end.

End store_model.

(** What the handlers use and neither they nor the design fix: the parser
    of a status name, the zero values of the drift and deployment status
    types (the value of a field a composite literal leaves out), the JSON
    codec, and the two log methods of the store. *)
Class Externals : Type := {
  NewStatus : string -> stack.Status;
  zeroDriftStatus : drift.Status;
  zeroDeploymentStatus : deployment.Status;
  unmarshalStackResponse : string -> option cloud.StackResponse;
  unmarshalDeploymentLogs : string -> option cloud.DeploymentLogs;
  marshalIndentFails : cloud.DeploymentLogs -> bool;
  data_GetDeploymentLogs :
    cloudstore.Data -> UUID -> string -> UUID -> Z ->
    Result cloud.DeploymentLogs;
  data_InsertDeploymentLogs :
    cloudstore.Data -> UUID -> string -> UUID -> cloud.DeploymentLogs ->
    Result cloudstore.Data
}.

(** [len(s)] and [s[i]] of a slice; [None] is the index-out-of-range
    panic. *)
Definition len {A} (l : list A) : Z := Z.of_nat (List.length l).

Definition at_index {A} (l : list A) (i : Z) : option A :=
  if i <? 0 then None else nth_error l (Z.to_nat i).

Definition indexOrPanic {A} (l : list A) (i : Z) : Handler A :=
  match at_index l i with
  | Some x => ret x
  | None => panic
  end.

(** [sort.Slice] by increasing ID.  The IDs of a listing are its indices,
    hence distinct, and the sorted slice is unique. *)
Fixpoint insertByID (r : cloud.StackResponse) (l : list cloud.StackResponse)
  : list cloud.StackResponse :=
  match l with
  | [] => [r]
  | x :: rest =>
      if cloud.ID r <? cloud.ID x then r :: l else x :: insertByID r rest
  end.

Definition sortSlice (l : list cloud.StackResponse)
  : list cloud.StackResponse :=
  fold_right insertByID [] l.

Definition StackResponseOf (id : Z) (st : cloudstore.Stack)
  : cloud.StackResponse :=
  {| cloud.ID := id;
     cloud.Stack_ := cloudstore.Stack_ st;
     cloud.Status := cloudstore.Status (cloudstore.State st);
     cloud.DeploymentStatus := cloudstore.DeploymentStatus (cloudstore.State st);
     cloud.DriftStatus := cloudstore.DriftStatus (cloudstore.State st);
     cloud.CreatedAt := cloudstore.CreatedAt (cloudstore.State st);
     cloud.UpdatedAt := cloudstore.UpdatedAt (cloudstore.State st);
     cloud.SeenAt := cloudstore.SeenAt (cloudstore.State st) |}.

Section Handlers.
Context {ext : Externals}.

Definition store_GetOrg (orguuid : UUID) : Handler (option cloudstore.Org) :=
  record (CallGetOrg orguuid) ;;
  d <- getStore ;;
  ret (store_model.GetOrg d orguuid).

Definition store_UpsertStack (orguuid : UUID) (st : cloudstore.Stack)
  : Handler (Result Z) :=
  record (CallUpsertStack orguuid st) ;;
  d <- getStore ;;
  match store_model.UpsertStack d orguuid st with
  | Ok (id, d') => putStore d' ;; ret (Ok id)
  | Err e => ret (Err e)
  end.

Definition store_GetDeploymentLogs (orguuid : UUID) (metaID : string)
  (deploymentUUID : UUID) (fromLine : Z)
  : Handler (Result cloud.DeploymentLogs) :=
  record (CallGetDeploymentLogs orguuid metaID deploymentUUID fromLine) ;;
  d <- getStore ;;
  ret (data_GetDeploymentLogs d orguuid metaID deploymentUUID fromLine).

Definition store_InsertDeploymentLogs (orguuid : UUID) (metaID : string)
  (deploymentUUID : UUID) (logs : cloud.DeploymentLogs)
  : Handler (option error) :=
  record (CallInsertDeploymentLogs orguuid metaID deploymentUUID logs) ;;
  d <- getStore ;;
  match data_InsertDeploymentLogs d orguuid metaID deploymentUUID logs with
  | Ok d' => putStore d' ;; ret None
  | Err e => ret (Some e)
  end.

(** *** GetStacks, the GET /stacks handler *)

(** The loop [for id, st := range stacks] with the response built so far. *)
Fixpoint rangeStacks (filter : cloudstore.Stack -> bool) (id : Z)
  (stacks : list cloudstore.Stack) (resp : list cloud.StackResponse)
  : Handler (list cloud.StackResponse) :=
  match stacks with
  | [] => ret resp
  | st :: rest =>
      if negb (validateStackStatus st) then
        WriteHeader http.StatusInternalServerError ;;
        writeErr (invalidStackStateError st) ;;
        Return
      else
        rangeStacks filter (id + 1) rest
          (if filter st then resp ++ [StackResponseOf id st] else resp)
  end.

Definition andFilters (filterStatus : stack.FilterStatus_t)
  (repoStr metaID : string) : list (cloudstore.Stack -> bool) :=
  (if negb (filterStatus =? stack.NoFilter) then
     [fun st =>
        negb (Z.land (stack.FilterStatus (cloudstore.Status (cloudstore.State st)))
                     filterStatus =? 0)]
   else [])
  ++ (if negb (String.eqb repoStr "") then
        [fun st => String.eqb (cloud.Repository (cloudstore.Stack_ st)) repoStr]
      else [])
  ++ (if negb (String.eqb metaID "") then
        [fun st => String.eqb (cloud.MetaID (cloudstore.Stack_ st)) metaID]
      else []).

Definition GetStacks (r : http.Request) (params : httprouter.Params)
  : Handler unit :=
  let orguuid := httprouter.ByName params "orguuid" in
  let filterStatusStr := http.FormValue r "status" in
  let repoStr := http.FormValue r "repository" in
  let metaID := http.FormValue r "meta_id" in
  o <- store_GetOrg orguuid ;;
  match o with
  | None =>
      WriteHeader http.StatusNotFound ;;
      writeString "organization not found" ;;
      Return
  | Some org =>
      filterStatus <-
        (if negb (String.eqb filterStatusStr "") then
           let filterStatus := stack.NewStatusFilter NewStatus filterStatusStr in
           if stack.Is filterStatus stack.Unrecognized then
             WriteHeader http.StatusBadRequest ;;
             writeErr (ErrInvalidStatus filterStatusStr) ;;
             Return
           else ret filterStatus
         else ret stack.NoFilter) ;;
      let filter st :=
        forallb (fun f => f st) (andFilters filterStatus repoStr metaID) in
      resp <- rangeStacks filter 0 (cloudstore.Stacks org) [] ;;
      let resp := sortSlice resp in
      HeaderAdd "Content-Type" "application/json" ;;
      write (http.WStacks {| cloud.Stacks := resp |})
  end.

(** *** PutStack, the PUT /stacks handler *)

Definition PutStack (r : http.Request) (p : httprouter.Params)
  : Handler unit :=
  match http.Body r with
  | None => WriteHeader http.StatusInternalServerError ;; Return
  | Some bodyData =>
      match unmarshalStackResponse bodyData with
      | None =>
          WriteHeader http.StatusBadRequest ;;
          writeErr ErrUnmarshal ;;
          Return
      | Some st =>
          let orguuid := httprouter.ByName p "orguuid" in
          res <- store_UpsertStack orguuid
                   {| cloudstore.Stack_ := cloud.Stack_ st;
                      cloudstore.State :=
                        {| cloudstore.Status := cloud.Status st;
                           cloudstore.DeploymentStatus := zeroDeploymentStatus;
                           cloudstore.DriftStatus := zeroDriftStatus;
                           cloudstore.CreatedAt := cloud.CreatedAt st;
                           cloudstore.UpdatedAt := cloud.UpdatedAt st;
                           cloudstore.SeenAt := cloud.SeenAt st |} |} ;;
          match res with
          | Err e =>
              WriteHeader http.StatusInternalServerError ;;
              writeErr e ;;
              Return
          | Ok _ => WriteHeader http.StatusNoContent
          end
      end
  end.

(** *** GetDeploymentLogs, the GET /deployments/.../logs handler *)

Definition GetDeploymentLogs (p : httprouter.Params) : Handler unit :=
  let stackIDStr := httprouter.ByName p "stackid" in
  (if String.eqb stackIDStr "" then
     WriteHeader http.StatusBadRequest ;; Return
   else ret tt) ;;
  let '(stackid, err) := Atoi stackIDStr in
  match err with
  | Some e => WriteHeader http.StatusBadRequest ;; writeErr e
  | None => ret tt
  end ;;
  let orguuid := httprouter.ByName p "orguuid" in
  o <- store_GetOrg orguuid ;;
  match o with
  | None =>
      WriteHeader http.StatusNotFound ;;
      writeString "organization not found" ;;
      Return
  | Some org =>
      let stacks := cloudstore.Stacks org in
      if (stackid <? 0) || (len stacks <=? stackid) then
        WriteHeader http.StatusNotFound ;;
        writeErr ErrStackNotFound ;;
        Return
      else
        stack <- indexOrPanic stacks stackid ;;
        let deploymentUUID := httprouter.ByName p "deployment_uuid" in
        res <- store_GetDeploymentLogs orguuid
                 (cloud.MetaID (cloudstore.Stack_ stack)) deploymentUUID 0 ;;
        match res with
        | Err e =>
            WriteHeader http.StatusInternalServerError ;;
            writeErr e ;;
            Return
        | Ok logs =>
            if marshalIndentFails logs then
              WriteHeader http.StatusInternalServerError ;; Return
            else write (http.WLogs logs)
        end
  end.

(** *** GetDeploymentLogsEvents, the SSE GET /deployments/.../logs handler *)

(** The inner loop [for _, l := range logs]: one line written (and
    flushed) per log, [line] advanced by one each time. *)
Fixpoint emitLogs (logs : cloud.DeploymentLogs) (line : Z) : Handler Z :=
  match logs with
  | [] => ret line
  | l :: rest => write (http.WLogLine l) ;; emitLogs rest (line + 1)
  end.

(** One turn of the endless [for] loop, up to its [time.Sleep]: the line
    number to poll from next, unless the poll fails and the handler
    returns. *)
Definition tailStep (orguuid : UUID) (metaID : string) (deploymentUUID : UUID)
  (line : Z) : Handler Z :=
  res <- store_GetDeploymentLogs orguuid metaID deploymentUUID line ;;
  match res with
  | Err e => writeErr e ;; Return
  | Ok logs =>
      line' <- emitLogs logs line ;;
      (if len logs =? 0 then write http.WPing else ret tt) ;;
      ret line'
  end.

(** The loop, observed for as many turns as [sleeps] has entries.  During
    the sleep that ends a turn the rest of the server may change the
    store; the entry says how.  [Next line] means the loop is still
    running, about to poll from [line]. *)
Fixpoint tailLoop (sleeps : list (cloudstore.Data -> cloudstore.Data))
  (orguuid : UUID) (metaID : string) (deploymentUUID : UUID) (line : Z)
  : Handler Z :=
  match sleeps with
  | [] => ret line
  | during :: rest =>
      line' <- tailStep orguuid metaID deploymentUUID line ;;
      d <- getStore ;;
      putStore (during d) ;;
      tailLoop rest orguuid metaID deploymentUUID line'
  end.

Definition GetDeploymentLogsEvents
  (sleeps : list (cloudstore.Data -> cloudstore.Data))
  (p : httprouter.Params) : Handler Z :=
  HeaderSet "Cache-Control" "no-cache" ;;
  HeaderSet "Connection" "keep-alive" ;;
  HeaderSet "Content-Type" "text/event-stream" ;;
  let orguuid := httprouter.ByName p "orguuid" in
  o <- store_GetOrg orguuid ;;
  match o with
  | None =>
      WriteHeader http.StatusNotFound ;;
      writeString "organization not found" ;;
      Return
  | Some org =>
      let stackIDStr := httprouter.ByName p "stackid" in
      (if String.eqb stackIDStr "" then
         WriteHeader http.StatusBadRequest ;; Return
       else ret tt) ;;
      let '(stackid, err) := Atoi stackIDStr in
      match err with
      | Some e => WriteHeader http.StatusBadRequest ;; writeErr e
      | None => ret tt
      end ;;
      let stacks := cloudstore.Stacks org in
      if (stackid <? 0) || (len stacks <=? stackid) then
        WriteHeader http.StatusNotFound ;;
        writeErr ErrStackNotFound ;;
        Return
      else
        stack <- indexOrPanic stacks stackid ;;
        let deploymentUUID := httprouter.ByName p "deployment_uuid" in
        tailLoop sleeps orguuid
          (cloud.MetaID (cloudstore.Stack_ stack)) deploymentUUID 0
  end.

(** *** PostDeploymentLogs, the POST /deployments/.../logs handler *)

Definition PostDeploymentLogs (r : http.Request) (p : httprouter.Params)
  : Handler unit :=
  let stackIDStr := httprouter.ByName p "stackid" in
  (if String.eqb stackIDStr "" then
     WriteHeader http.StatusBadRequest ;; Return
   else ret tt) ;;
  let '(stackid, err) := Atoi stackIDStr in
  match err with
  | Some e => WriteHeader http.StatusBadRequest ;; writeErr e ;; Return
  | None => ret tt
  end ;;
  let orguuid := httprouter.ByName p "orguuid" in
  o <- store_GetOrg orguuid ;;
  match o with
  | None =>
      WriteHeader http.StatusNotFound ;;
      writeString "organization not found" ;;
      Return
  | Some org =>
      let stacks := cloudstore.Stacks org in
      if (stackid <? 0) || (len stacks <=? stackid) then
        WriteHeader http.StatusNotFound ;;
        writeErr ErrStackNotFound ;;
        Return
      else
        stack <- indexOrPanic stacks stackid ;;
        let deploymentUUID := httprouter.ByName p "deployment_uuid" in
        match http.Body r with
        | None => WriteHeader http.StatusInternalServerError ;; Return
        | Some bodyData =>
            match unmarshalDeploymentLogs bodyData with
            | None => WriteHeader http.StatusBadRequest ;; Return
            | Some logs =>
                err <- store_InsertDeploymentLogs orguuid
                         (cloud.MetaID (cloudstore.Stack_ stack))
                         deploymentUUID logs ;;
                match err with
                | Some e =>
                    WriteHeader http.StatusInternalServerError ;;
                    writeErr e ;;
                    Return
                | None => WriteHeader http.StatusNoContent
                end
            end
        end
  end.

(** *** Reading a listing request *)

(** The mask GetStacks filters with for a status token it accepts. *)
Definition parsedFilter (token : string) : stack.FilterStatus_t :=
  if String.eqb token "" then stack.NoFilter
  else stack.NewStatusFilter NewStatus token.

(** GetStacks goes past its status check. *)
Definition tokenAccepted (token : string) : Prop :=
  token = ""
  \/ stack.Is (stack.NewStatusFilter NewStatus token) stack.Unrecognized
     = false.

(** The conjunction of filters of a request. *)
Definition keeps (r : http.Request) (st : cloudstore.Stack) : bool :=
  forallb (fun f => f st)
    (andFilters (parsedFilter (http.FormValue r "status"))
                (http.FormValue r "repository")
                (http.FormValue r "meta_id")).

(** A token names a filter when it is one of the two convenience terms or
    the name of a status. *)
Definition recognizedToken (token : string) : Prop :=
  token = "healthy" \/ token = "unhealthy"
  \/ NewStatus token <> stack.Unrecognized.

End Handlers.

(** ** Reading responses *)

(** The response of a handler that wrote [code] and then [out]. *)
Definition answered (code : Z) (header : list (string * string))
  (out : list http.Written) : http.ResponseWriter :=
  {| http.Code := Some code; http.Header := header; http.Out := out |}.

(** The stacks a response body lists, if the body is a listing. *)
Definition listedStacks (rw : http.ResponseWriter)
  : option (list cloud.StackResponse) :=
  match http.Out rw with
  | [http.WStacks resp] => Some (cloud.Stacks resp)
  | _ => None
  end.

(** The response writer after the entries [xs] were written to it. *)
Definition wrote (xs : list http.Written) (rw : http.ResponseWriter)
  : http.ResponseWriter :=
  {| http.Code :=
       match xs with
       | [] => http.Code rw
       | _ :: _ =>
           match http.Code rw with
           | None => Some http.StatusOK
           | Some c => Some c
           end
       end;
     http.Header := http.Header rw;
     http.Out := http.Out rw ++ xs |}.

(** What one turn of the loop writes for the outcome of its poll. *)
Definition turnEvents (res : Result cloud.DeploymentLogs)
  : list http.Written :=
  match res with
  | Err e => [http.WErr e]
  | Ok [] => [http.WPing]
  | Ok logs => map http.WLogLine logs
  end.

(** The two halves of the conjunction of filters. *)
Definition otherKeep (repoStr metaID : string) (st : cloudstore.Stack)
  : bool :=
  (String.eqb repoStr ""
   || String.eqb (cloud.Repository (cloudstore.Stack_ st)) repoStr)
  && (String.eqb metaID ""
      || String.eqb (cloud.MetaID (cloudstore.Stack_ st)) metaID).

Definition statusKeep (mask : stack.FilterStatus_t) (s : stack.Status)
  : bool :=
  (mask =? stack.NoFilter)
  || negb (Z.land (stack.FilterStatus s) mask =? 0).

(** ** The command-line listing

    The listing command is part of package [cmd/terramate/cli]; its
    end-to-end test [TestCloudListUnhealthy] states what it must do on a
    local repository. *)

Module cli.

(** Modelled from the spec: where the repository's remote points.  A
    hosted remote resolves to an identity of the form host/owner/name; a
    filesystem path resolves to none. *)
Inductive Remote : Type :=
| Hosted (identity : string)
| Filesystem (path : string).

Definition remoteIdentity (r : Remote) : option string :=
  match r with
  | Hosted identity => Some identity
  | Filesystem _ => None
  end.

Record LocalStack : Type := mkLocalStack {
  Dir : string;
  MetaID : option string
}.

Record RunResult : Type := mkRunResult {
  Status : Z;
  Stdout : list string;
  Stderr : string
}.

Definition hasID (ids : list string) (s : LocalStack) : bool :=
  match MetaID s with
  | Some id => existsb (String.eqb id) ids
  | None => false
  end.

(** Modelled from the spec: the listing command with its status filter
    flag (section 4.4 and section 6, "Command-line surface").  Without the
    flag every local stack is listed.  With it, a repository whose remote
    identity cannot be resolved is rejected with exit status 1, a message
    and no output; otherwise the remote records matching the filter are
    queried ([query], a rejected filter being an error) and the local
    stacks whose identifier is among them are listed, stacks without an
    identifier being left out. *)
Definition listStacks (remote : Remote) (statusFlag : string)
  (locals : list LocalStack)
  (query : string -> string -> Result (list string)) : RunResult :=
  if String.eqb statusFlag "" then
    {| Status := 0; Stdout := map Dir locals; Stderr := "" |}
  else
    match remoteIdentity remote with
    | None =>
        {| Status := 1;
           Stdout := [];
           Stderr := "unhealthy status filter does not work with filesystem based remotes" |}
    | Some repository =>
        match query repository statusFlag with
        | Err _ =>
            {| Status := 1; Stdout := []; Stderr := "invalid status filter" |}
        | Ok ids =>
            {| Status := 0;
               Stdout := map Dir (filter (hasID ids) locals);
               Stderr := "" |}
        end
    end.

(** [RunExpected] of the end-to-end tests, and its check
    [AssertRunResult]: equal status, and standard error containing the
    expected text when one is given. *)
Record RunExpected : Type := mkRunExpected {
  WantStatus : Z;
  WantStderrRegex : string
}.

Fixpoint contains (needle hay : string) : bool :=
  String.prefix needle hay
  || match hay with
     | EmptyString => false
     | String _ rest => contains needle rest
     end.

Definition AssertRunResult (got : RunResult) (want : RunExpected) : bool :=
  (Status got =? WantStatus want)
  && (String.eqb (WantStderrRegex want) ""
      || contains (WantStderrRegex want) (Stderr got)).

(** The first case of [TestCloudListUnhealthy]: "local repository is not
    permitted with --experimental-status=". *)
Definition wantLocalRepository : RunExpected :=
  {| WantStatus := 1;
     WantStderrRegex :=
       "unhealthy status filter does not work with filesystem based remotes" |}.

End cli.

(** ** The classification table of the design document

    Section 4.4 prints the mapping row by row (drift, then deployment);
    this is that print, to be compared with [stateTable]. *)
Definition specTable
  : list (drift.Status * deployment.Status * stack.Status) :=
  [ (drift.Unknown, deployment.OK, stack.OK);
    (drift.Unknown, deployment.Failed, stack.Failed);
    (drift.Unknown, deployment.Canceled, stack.Failed);
    (drift.OK, deployment.OK, stack.OK);
    (drift.OK, deployment.Failed, stack.OK);
    (drift.OK, deployment.Canceled, stack.OK);
    (drift.Drifted, deployment.OK, stack.Drifted);
    (drift.Drifted, deployment.Failed, stack.Failed);
    (drift.Drifted, deployment.Canceled, stack.Failed);
    (drift.Failed, deployment.OK, stack.OK);
    (drift.Failed, deployment.Pending, stack.OK);
    (drift.Failed, deployment.Running, stack.OK) ].

(** A pair is listed when the table has some status for it. *)
Definition listed_pair (d : drift.Status) (p : deployment.Status) : Prop :=
  exists s, In (d, p, s) specTable.

(** A stored stack is validly classified when its status is the table's
    status for its drift and deployment. *)
Definition validlyClassified (st : cloudstore.Stack) : Prop :=
  Classify (cloudstore.DriftStatus (cloudstore.State st))
           (cloudstore.DeploymentStatus (cloudstore.State st))
  = Some (cloudstore.Status (cloudstore.State st)).

(** What a listing that filters with [keep] answers for [stacks], the
    first of which has index [id]. *)
Fixpoint listing (keep : cloudstore.Stack -> bool) (id : Z)
  (stacks : list cloudstore.Stack) : list cloud.StackResponse :=
  match stacks with
  | [] => []
  | st :: rest =>
      (if keep st then [StackResponseOf id st] else [])
      ++ listing keep (id + 1) rest
  end.

(** ** A sample environment

    One choice of the externals, used to run the handlers on concrete
    requests. *)
Module sample.

Definition NewStatus (s : string) : stack.Status :=
  if String.eqb s "ok" then stack.OK
  else if String.eqb s "failed" then stack.Failed
  else if String.eqb s "drifted" then stack.Drifted
  else if String.eqb s "unknown" then stack.Unknown
  else stack.Unrecognized.

Definition key (orguuid : UUID) (metaID : string) (deploymentUUID : UUID)
  : cloudstore.LogKey :=
  {| cloudstore.KeyOrg := orguuid;
     cloudstore.KeyMetaID := metaID;
     cloudstore.KeyDeployment := deploymentUUID |}.

(** Modelled from the spec: reading the log of a deployment from a line
    number on (section 6, "Append log lines"). *)
Definition GetDeploymentLogs (d : cloudstore.Data) (orguuid : UUID)
  (metaID : string) (deploymentUUID : UUID) (fromLine : Z)
  : Result cloud.DeploymentLogs :=
  match index cloudstore.LogKey_eqb (cloudstore.Logs d)
              (key orguuid metaID deploymentUUID) with
  | None => Err (ErrStore "deployment not found")
  | Some logs => Ok (skipn (Z.to_nat fromLine) logs)
  end.

Fixpoint appendLogs (all : list (cloudstore.LogKey * cloud.DeploymentLogs))
  (k : cloudstore.LogKey) (logs : cloud.DeploymentLogs)
  : list (cloudstore.LogKey * cloud.DeploymentLogs) :=
  match all with
  | [] => [(k, logs)]
  | (k', old) :: rest =>
      if cloudstore.LogKey_eqb k' k then (k', old ++ logs) :: rest
      else (k', old) :: appendLogs rest k logs
  end.

(** Modelled from the spec: appending log lines to a deployment. *)
Definition InsertDeploymentLogs (d : cloudstore.Data) (orguuid : UUID)
  (metaID : string) (deploymentUUID : UUID) (logs : cloud.DeploymentLogs)
  : Result cloudstore.Data :=
  Ok {| cloudstore.Orgs := cloudstore.Orgs d;
        cloudstore.Logs :=
          appendLogs (cloudstore.Logs d)
                     (key orguuid metaID deploymentUUID) logs |}.

Definition stackS1 (s : stack.Status) : cloud.StackResponse :=
  {| cloud.ID := 0;
     cloud.Stack_ := {| cloud.Repository := "github.com/terramate-io/terramate";
                        cloud.MetaID := "s1" |};
     cloud.Status := s;
     cloud.DeploymentStatus := deployment.Failed;
     cloud.DriftStatus := drift.Drifted;
     cloud.CreatedAt := None;
     cloud.UpdatedAt := None;
     cloud.SeenAt := None |}.

(** A stand-in for the JSON decoder: three request bodies it knows. *)
Definition unmarshalStackResponse (body : string)
  : option cloud.StackResponse :=
  if String.eqb body "s1 ok" then Some (stackS1 stack.OK)
  else if String.eqb body "s1 failed" then Some (stackS1 stack.Failed)
  else if String.eqb body "s1 drifted" then Some (stackS1 stack.Drifted)
  else None.

Definition logLine (n : Z) (msg : string) : cloud.DeploymentLog :=
  {| cloud.Line := n; cloud.Channel := "stdout";
     cloud.Timestamp := None; cloud.Message := msg |}.

Definition unmarshalDeploymentLogs (body : string)
  : option cloud.DeploymentLogs :=
  if String.eqb body "one line" then Some [logLine 1 "hello"] else None.

(** Stored stacks and stores to run the handlers on. *)
Definition stored (metaID : string) (s : stack.Status)
  (p : deployment.Status) (d : drift.Status) : cloudstore.Stack :=
  {| cloudstore.Stack_ :=
       {| cloud.Repository := "github.com/terramate-io/terramate";
          cloud.MetaID := metaID |};
     cloudstore.State :=
       {| cloudstore.Status := s;
          cloudstore.DeploymentStatus := p;
          cloudstore.DriftStatus := d;
          cloudstore.CreatedAt := None;
          cloudstore.UpdatedAt := None;
          cloudstore.SeenAt := None |} |}.

Definition storeOf (stacks : list cloudstore.Stack) : cloudstore.Data :=
  {| cloudstore.Orgs := [("terramate", {| cloudstore.Stacks := stacks |})];
     cloudstore.Logs :=
       [(key "terramate" "s1" "deploy-1",
         [logLine 1 "init"; logLine 2 "apply"])] |}.

(** Three validly classified stacks: one OK, one Drifted, one Failed. *)
Definition healthyStore : cloudstore.Data :=
  storeOf [ stored "s1" stack.OK deployment.OK drift.OK;
            stored "s2" stack.Drifted deployment.OK drift.Drifted;
            stored "s3" stack.Failed deployment.Failed drift.Unknown ].

(** The second stack has the combination (drift Failed, deployment
    Failed), which the table does not have. *)
Definition brokenStore : cloudstore.Data :=
  storeOf [ stored "s1" stack.OK deployment.OK drift.OK;
            stored "s2" stack.Failed deployment.Failed drift.Failed;
            stored "s3" stack.Drifted deployment.OK drift.Drifted ].


Definition query (status : string) : http.Request :=
  {| http.Form := [("status", status)]; http.Body := None |}.

Definition put (body : string) : http.Request :=
  {| http.Form := []; http.Body := Some body |}.

Definition org : httprouter.Params := [("orguuid", "terramate")].

Definition logsOf (stackid : string) : httprouter.Params :=
  [("orguuid", "terramate"); ("stackid", stackid);
   ("deployment_uuid", "deploy-1")].

Definition externals : Externals :=
  Build_Externals NewStatus drift.Unknown deployment.Unknown
    unmarshalStackResponse unmarshalDeploymentLogs (fun _ => false)
    GetDeploymentLogs InsertDeploymentLogs.

End sample.

(** ** GetStackDrifts, the /v1/stacks/:orguuid/:stackid/drifts handler

    The handler reads the drifts of a stack from the store and answers
    them most recent first.  It neither changes the store nor returns
    early between writes, so it is written as a function from the request
    and the store to the response. *)

Module cloud_drifts.

(** [cloud.Drift], with the four fields the handler fills.  The types of
    [Details] and [Metadata] are parameters. *)
Record Drift (D M : Type) : Type := mkDrift {
  ID : Z;
  Status : drift.Status;
  Details : D;
  Metadata : M
}.
Arguments mkDrift {D M}.
Arguments ID {D M}.
Arguments Status {D M}.
Arguments Details {D M}.
Arguments Metadata {D M}.

End cloud_drifts.

Module cloudstore_drifts.

(** [cloudstore.Drift], with the four fields the handler reads. *)
Record Drift (D M : Type) : Type := mkDrift {
  ID : Z;
  Status : drift.Status;
  Details : D;
  Metadata : M
}.
Arguments mkDrift {D M}.
Arguments ID {D M}.
Arguments Status {D M}.
Arguments Details {D M}.
Arguments Metadata {D M}.

End cloudstore_drifts.

Module drifts.

Section Handler.
Variables D M : Type.

(** [errors.E(err, "invalid stackid")] wraps the error of Atoi; a store
    error is written as it is. *)
Inductive Problem : Type :=
| InvalidStackid (cause : error)
| StoreProblem (e : error).

Inductive Written : Type :=
| WErr (e : Problem)
| WDrifts (res : list (cloud_drifts.Drift D M)).
    (* marshalWrite of cloud.DriftsStackPayloadResponse{Drifts: res} *)

Record Response : Type := mkResponse {
  Code : option Z;
  Header : list (string * string);
  Out : list Written
}.

Definition newResponse : Response :=
  {| Code := None; Header := []; Out := [] |}.

Definition WriteHeader (code : Z) (rw : Response) : Response :=
  {| Code := match Code rw with
             | None => Some code
             | Some c => Some c
             end;
     Header := Header rw;
     Out := Out rw |}.

Definition write (x : Written) (rw : Response) : Response :=
  {| Code := match Code rw with
             | None => Some http.StatusOK
             | Some c => Some c
             end;
     Header := Header rw;
     Out := Out rw ++ [x] |}.

Definition HeaderSet (k v : string) (rw : Response) : Response :=
  {| Code := Code rw;
     Header := filter (fun kv => negb (String.eqb (fst kv) k)) (Header rw)
               ++ [(k, v)];
     Out := Out rw |}.

(** The loop that copies a stored drift into the response. *)
Definition toDrift (d : cloudstore_drifts.Drift D M) : cloud_drifts.Drift D M :=
  {| cloud_drifts.ID := cloudstore_drifts.ID d;
     cloud_drifts.Status := cloudstore_drifts.Status d;
     cloud_drifts.Details := cloudstore_drifts.Details d;
     cloud_drifts.Metadata := cloudstore_drifts.Metadata d |}.

(** [sort.Slice] with [less(i, j) = ID(i) > ID(j)]: decreasing ID.
    [sort.Slice] is not stable; among equal IDs this insertion keeps the
    order of arrival, one of the orders it may give. *)
Fixpoint insertByIDDesc (r : cloud_drifts.Drift D M)
  (l : list (cloud_drifts.Drift D M)) : list (cloud_drifts.Drift D M) :=
  match l with
  | [] => [r]
  | x :: rest =>
      if cloud_drifts.ID x <? cloud_drifts.ID r then r :: l
      else x :: insertByIDDesc r rest
  end.

Definition sortMostRecentFirst (l : list (cloud_drifts.Drift D M))
  : list (cloud_drifts.Drift D M) :=
  fold_right insertByIDDesc [] l.

(** [getStackDrifts] stands for the method [Data.GetStackDrifts] of the
    store, applied to the store. *)
Definition GetStackDrifts
  (getStackDrifts : UUID -> Z -> Result (list (cloudstore_drifts.Drift D M)))
  (params : httprouter.Params) : Response :=
  let orguuid := httprouter.ByName params "orguuid" in
  let '(stackid, err) := Atoi (httprouter.ByName params "stackid") in
  match err with
  | Some e =>
      write (WErr (InvalidStackid e))
        (WriteHeader http.StatusBadRequest newResponse)
  | None =>
      match getStackDrifts orguuid stackid with
      | Err e =>
          write (WErr (StoreProblem e))
            (WriteHeader http.StatusInternalServerError newResponse)
      | Ok stored =>
          let res := sortMostRecentFirst (map toDrift stored) in
          write (WDrifts res)
            (WriteHeader http.StatusOK
               (HeaderSet "Content-Type" "application/json" newResponse))
      end
  end.

End Handler.

Arguments WErr {D M}.
Arguments WDrifts {D M}.
Arguments Code {D M}.
Arguments Header {D M}.
Arguments Out {D M}.
Arguments toDrift {D M}.
Arguments sortMostRecentFirst {D M}.
Arguments insertByIDDesc {D M}.
Arguments GetStackDrifts {D M}.

End drifts.

(** ** The test sandbox (package [sandbox])

    [BuildTree] reads a layout, one string per filesystem operation, and
    performs the operations under the sandbox's base directory.  The
    operations go to a log; [filepath.Join(basedir, rel)] is kept as the
    pair of its arguments. *)

Module sandbox.

(** [s[n:]] and [s[:n]] of a Go string; [None] is the slice-bounds
    panic. *)
Fixpoint sliceFrom (s : string) (n : nat) {struct n} : option string :=
  match n, s with
  | O, _ => Some s
  | S _, EmptyString => None
  | S n', String _ rest => sliceFrom rest n'
  end.

Fixpoint sliceTo (s : string) (n : nat) {struct n} : option string :=
  match n, s with
  | O, _ => Some EmptyString
  | S _, EmptyString => None
  | S n', String c rest =>
      match sliceTo rest n' with
      | Some pre => Some (String c pre)
      | None => None
      end
  end.

(** [strings.IndexByte(s, c)]: the index of the first [c], or -1. *)
Fixpoint IndexByte (s : string) (c : ascii) : Z :=
  match s with
  | EmptyString => -1
  | String a rest =>
      if Ascii.eqb a c then 0
      else let i := IndexByte rest c in
           if i <? 0 then -1 else i + 1
  end.

(** [filepath.IsAbs] on a Unix system. *)
Definition IsAbs (path : string) : bool :=
  match path with
  | String "/"%char _ => true
  | _ => false
  end.

Inductive Op : Type :=
| MkdirAll (basedir rel : string)
    (* test.MkdirAll(t, filepath.Join(basedir, rel)) *)
| Init (basedir rel : string)
    (* terrastack.Init(filepath.Join(basedir, rel), false) *)
| WriteFile (basedir file body : string).
    (* test.WriteFile(t, basedir, file, body) *)

Inductive Fatal : Type :=
| NeedsRelativePath (fn relpath : string)
    (* "CreateStack() needs a relative path but given %q" *)
| UnknownTreeIdentifier (kind : ascii).
    (* "unknown tree identifier: %d" *)

(** How a run of sandbox code ends, with the operations done so far:
    normally, in [t.Fatalf], or in a run-time panic. *)
Inductive Run : Type :=
| Done (ops : list Op)
| Failed (ops : list Op) (why : Fatal)
| Panic (ops : list Op).

Definition newDirEntry (basedir relpath : string) : list Op :=
  [MkdirAll basedir relpath].

Definition CreateModule (basedir relpath : string) : Run :=
  if IsAbs relpath then Failed [] (NeedsRelativePath "CreateModule" relpath)
  else Done (newDirEntry basedir relpath).

Definition CreateStack (basedir relpath : string) : Run :=
  if IsAbs relpath then Failed [] (NeedsRelativePath "CreateStack" relpath)
  else Done (newDirEntry basedir relpath ++ [Init basedir relpath]).

(** One turn of the loop of [BuildTree]. *)
Definition buildSpec (basedir spec : string) : Run :=
  match spec with
  | EmptyString => Panic []                       (* spec[0] *)
  | String kind _ =>
      if Ascii.eqb kind "d"%char then
        match sliceFrom spec 2 with
        | None => Panic []
        | Some rel => Done [MkdirAll basedir rel]
        end
      else if Ascii.eqb kind "s"%char then
        match sliceFrom spec 2 with
        | None => Panic []
        | Some rel => CreateStack basedir rel
        end
      else if Ascii.eqb kind "f"%char then
        match sliceFrom spec 2 with
        | None => Panic []
        | Some tmp =>
            let index := IndexByte tmp ":"%char in
            if index <? 0 then Panic []           (* tmp[0:-1] *)
            else
              match sliceTo tmp (Z.to_nat index),
                    sliceFrom tmp (Z.to_nat (index + 1)) with
              | Some file, Some content =>
                  Done [WriteFile basedir file content]
              | _, _ => Panic []
              end
        end
      else Failed [] (UnknownTreeIdentifier kind)
  end.

(** A run, then another if the first ended normally. *)
Definition andThen (r : Run) (next : Run) : Run :=
  match r with
  | Done ops =>
      match next with
      | Done ops' => Done (ops ++ ops')
      | Failed ops' why => Failed (ops ++ ops') why
      | Panic ops' => Panic (ops ++ ops')
      end
  | Failed ops why => Failed ops why
  | Panic ops => Panic ops
  end.

Fixpoint BuildTree (basedir : string) (layout : list string) : Run :=
  match layout with
  | [] => Done []
  | spec :: rest => andThen (buildSpec basedir spec) (BuildTree basedir rest)
  end.

End sandbox.

(** ** Counting what the live tail wrote *)

Definition logLinesOf (out : list http.Written) : list cloud.DeploymentLog :=
  flat_map (fun x => match x with
                     | http.WLogLine l => [l]
                     | _ => []
                     end) out.

(** ** More of the sample environment *)

Module sample_more.

(** The organization of [healthyStore]. *)
Definition healthyOrg : cloudstore.Org :=
  {| cloudstore.Stacks :=
       [ sample.stored "s1" stack.OK deployment.OK drift.OK;
         sample.stored "s2" stack.Drifted deployment.OK drift.Drifted;
         sample.stored "s3" stack.Failed deployment.Failed drift.Unknown ] |}.

(** The stored stack of the case "1 cloud stack drifted, other absent" of
    [TestCloudListUnhealthy]: the status Drifted beside a drifted drift
    and a failed deployment, a pair for which the table says Failed. *)
Definition driftedS1 : cloudstore.Stack :=
  sample.stored "s1" stack.Drifted deployment.Failed drift.Drifted.

Definition okS2 : cloudstore.Stack :=
  sample.stored "s2" stack.OK deployment.OK drift.OK.

Definition testStore : cloudstore.Data :=
  sample.storeOf [driftedS1; okS2].

(** Two stacks with invalid combinations after a valid one: (drift Failed,
    deployment Failed), then (drift OK, deployment Unknown). *)
Definition twiceBrokenOrg : cloudstore.Org :=
  {| cloudstore.Stacks :=
       [ sample.stored "s1" stack.OK deployment.OK drift.OK;
         sample.stored "s2" stack.Failed deployment.Failed drift.Failed;
         sample.stored "s3" stack.OK deployment.Unknown drift.OK ] |}.

Definition twiceBrokenStore : cloudstore.Data :=
  sample.storeOf (cloudstore.Stacks twiceBrokenOrg).

(** Stored drifts, with nothing for details and metadata. *)
Definition storedDrift (id : Z) (s : drift.Status)
  : cloudstore_drifts.Drift unit unit :=
  {| cloudstore_drifts.ID := id;
     cloudstore_drifts.Status := s;
     cloudstore_drifts.Details := tt;
     cloudstore_drifts.Metadata := tt |}.

Definition getStackDrifts (orguuid : UUID) (stackid : Z)
  : Result (list (cloudstore_drifts.Drift unit unit)) :=
  if String.eqb orguuid "terramate" && (stackid =? 0) then
    Ok [ storedDrift 1 drift.OK; storedDrift 3 drift.Drifted;
         storedDrift 2 drift.Failed ]
  else Err (ErrStore "stack not found").


End sample_more.

(** * Properties *)

(** ** Running handlers by computation *)

Ltac run_handler :=
  unfold serve, store_GetOrg, store_UpsertStack, store_GetDeploymentLogs,
    store_InsertDeploymentLogs, indexOrPanic, writeString, writeErr,
    WriteHeader, write, HeaderSet, HeaderAdd, setWriter, record, getStore,
    putStore, bind, ret, Return, panic;
  simpl.

(** ** Equality tests of the status types *)

Lemma drift_eqb_spec (a b : drift.Status) : reflect (a = b) (drift.eqb a b).
Proof. destruct a, b; simpl; constructor; congruence. Qed.

Lemma deployment_eqb_spec (a b : deployment.Status) :
  reflect (a = b) (deployment.eqb a b).
Proof. destruct a, b; simpl; constructor; congruence. Qed.

Lemma stack_eqb_spec (a b : stack.Status) : reflect (a = b) (stack.eqb a b).
Proof. destruct a, b; simpl; constructor; congruence. Qed.

(** ** The filter masks *)

Lemma FilterStatus_land (a b : stack.Status) :
  Z.land (stack.FilterStatus a) (stack.FilterStatus b) <> 0 <-> a = b.
Proof.
  destruct a, b; vm_compute; split; intro H;
    first [reflexivity | discriminate H | congruence | exfalso; apply H; reflexivity].
Qed.

Lemma FilterStatus_nonzero (s : stack.Status) :
  stack.FilterStatus s <> stack.NoFilter.
Proof. destruct s; discriminate. Qed.

Lemma unhealthy_matches (s : stack.Status) :
  negb (Z.land (stack.FilterStatus s) stack.UnhealthyFilter =? 0) = true
  <-> s = stack.Failed \/ s = stack.Drifted.
Proof.
  destruct s; vm_compute; split; intro H;
    first [ discriminate H
          | left; reflexivity
          | right; reflexivity
          | reflexivity
          | destruct H as [H | H]; discriminate H ].
Qed.

Lemma healthy_matches (s : stack.Status) :
  negb (Z.land (stack.FilterStatus s) stack.HealthyFilter =? 0) = true
  <-> s = stack.OK.
Proof.
  destruct s; vm_compute; split; intro H;
    first [reflexivity | discriminate H].
Qed.

Lemma Is_Unrecognized_FilterStatus (s : stack.Status) :
  stack.Is (stack.FilterStatus s) stack.Unrecognized = true
  <-> s = stack.Unrecognized.
Proof.
  destruct s; vm_compute; split; intro H;
    first [reflexivity | discriminate H].
Qed.

(** ** The state table *)

(** The table of the code and the table of the design document relate the
    same triples. *)
Lemma Classify_specTable (d : drift.Status) (p : deployment.Status)
  (s : stack.Status) :
  Classify d p = Some s <-> In (d, p, s) specTable.
Proof.
  destruct d, p, s; split; intro H;
    first [ reflexivity
          | solve [simpl; auto 20]
          | solve [exfalso; vm_compute in H; discriminate H]
          | solve [exfalso; simpl in H; intuition discriminate] ].
Qed.

Lemma Classify_None (d : drift.Status) (p : deployment.Status) :
  Classify d p = None <-> ~ listed_pair d p.
Proof.
  split.
  - intros HN [s Hin]. apply Classify_specTable in Hin. congruence.
  - intro Hno. destruct (Classify d p) as [s |] eqn:E; [| reflexivity].
    exfalso. apply Hno. exists s. apply Classify_specTable. exact E.
Qed.

Lemma validateStackStatus_true (st : cloudstore.Stack) :
  validateStackStatus st = true
  <-> listed_pair (cloudstore.DriftStatus (cloudstore.State st))
                  (cloudstore.DeploymentStatus (cloudstore.State st)).
Proof.
  unfold validateStackStatus.
  destruct (Classify _ _) as [s |] eqn:E.
  - split; [intros _ | reflexivity]. exists s.
    apply Classify_specTable. exact E.
  - split; [discriminate |]. intro HL.
    apply Classify_None in E. contradiction.
Qed.

Lemma validateStackStatus_false (st : cloudstore.Stack) :
  validateStackStatus st = false
  <-> ~ listed_pair (cloudstore.DriftStatus (cloudstore.State st))
                    (cloudstore.DeploymentStatus (cloudstore.State st)).
Proof.
  rewrite <- validateStackStatus_true.
  destruct (validateStackStatus st); split; intro H;
    first [reflexivity | discriminate | congruence | exfalso; apply H; reflexivity].
Qed.

Lemma validlyClassified_validates (st : cloudstore.Stack) :
  validlyClassified st -> validateStackStatus st = true.
Proof.
  unfold validlyClassified, validateStackStatus. intros ->. reflexivity.
Qed.

(** The table never yields Unknown or Unrecognized. *)
Lemma Classify_range (d : drift.Status) (p : deployment.Status)
  (s : stack.Status) :
  Classify d p = Some s ->
  s = stack.OK \/ s = stack.Failed \/ s = stack.Drifted.
Proof.
  destruct d, p; simpl; intro H; inversion H; auto.
Qed.

(** C1.  For every (drift, deployment) pair of the design document's
    classification table the classifier, i.e. the double index into
    [stateTable] that the handlers perform, yields exactly the status the
    table gives; in particular (Drifted, Failed) is classified Failed and
    (OK, Canceled) is classified OK.  The outcome is a function of the
    pair alone: two stored stacks with the same drift and deployment
    status get the same verdict from [validateStackStatus], whatever their
    other fields. *)
Theorem classify_follows_table :
  (forall d p s, In (d, p, s) specTable -> Classify d p = Some s)
  /\ Classify drift.Drifted deployment.Failed = Some stack.Failed
  /\ Classify drift.OK deployment.Canceled = Some stack.OK
  /\ (forall st1 st2 : cloudstore.Stack,
        cloudstore.DriftStatus (cloudstore.State st1)
        = cloudstore.DriftStatus (cloudstore.State st2) ->
        cloudstore.DeploymentStatus (cloudstore.State st1)
        = cloudstore.DeploymentStatus (cloudstore.State st2) ->
        validateStackStatus st1 = validateStackStatus st2).
Proof.
  split; [| split; [| split]].
  - intros d p s Hin. apply Classify_specTable. exact Hin.
  - reflexivity.
  - reflexivity.
  - intros st1 st2 Hd Hp. unfold validateStackStatus.
    rewrite Hd, Hp. reflexivity.
Qed.

Lemma classify_follows_table_witness :
  Classify drift.Unknown deployment.Canceled = Some stack.Failed
  /\ validateStackStatus
       (cloudstore.mkStack (cloud.mkStack "r" "a")
          (cloudstore.mkStackState stack.OK deployment.OK drift.Failed
             None None None))
     = validateStackStatus
         (cloudstore.mkStack (cloud.mkStack "r" "b")
            (cloudstore.mkStackState stack.Unknown deployment.OK drift.Failed
               (Some 1) None None)).
Proof.
  split.
  - apply (proj1 classify_follows_table). simpl. auto 10.
  - apply (proj2 (proj2 (proj2 classify_follows_table))); reflexivity.
Defined.

(** ** The sort of a listing is the listing *)

Lemma listing_ID_ge (keep : cloudstore.Stack -> bool)
  (stacks : list cloudstore.Stack) :
  forall id r, In r (listing keep id stacks) -> id <= cloud.ID r.
Proof.
  induction stacks as [| st rest IH]; intros id r Hin; simpl in Hin.
  - contradiction.
  - apply in_app_or in Hin. destruct Hin as [Hin | Hin].
    + destruct (keep st); simpl in Hin; [| contradiction].
      destruct Hin as [<- | []]. simpl. lia.
    + apply IH in Hin. lia.
Qed.

Lemma insertByID_least (r : cloud.StackResponse)
  (l : list cloud.StackResponse) :
  (forall x, In x l -> cloud.ID r < cloud.ID x) ->
  insertByID r l = r :: l.
Proof.
  destruct l as [| x rest]; intro Hlt; simpl; [reflexivity |].
  assert (H : cloud.ID r < cloud.ID x) by (apply Hlt; left; reflexivity).
  apply Z.ltb_lt in H. rewrite H. reflexivity.
Qed.

Lemma sortSlice_listing (keep : cloudstore.Stack -> bool)
  (stacks : list cloudstore.Stack) :
  forall id, sortSlice (listing keep id stacks) = listing keep id stacks.
Proof.
  induction stacks as [| st rest IH]; intro id; simpl; [reflexivity |].
  destruct (keep st); simpl.
  - unfold sortSlice in *. simpl. rewrite IH.
    apply insertByID_least. intros x Hx.
    apply listing_ID_ge in Hx. simpl. lia.
  - apply IH.
Qed.

Section HandlerFacts.
Context {ext : Externals}.

(** ** GetStacks *)

Lemma rangeStacks_valid (keep : cloudstore.Stack -> bool)
  (stacks : list cloudstore.Stack) :
  Forall (fun st => validateStackStatus st = true) stacks ->
  forall id resp s,
    rangeStacks keep id stacks resp s
    = (Next (resp ++ listing keep id stacks), s).
Proof.
  induction 1 as [| st rest Hst _ IH]; intros id resp s; simpl.
  - rewrite app_nil_r. reflexivity.
  - rewrite Hst. simpl. rewrite IH.
    destruct (keep st); simpl.
    + rewrite <- app_assoc. reflexivity.
    + reflexivity.
Qed.

Lemma rangeStacks_invalid (keep : cloudstore.Stack -> bool)
  (pre : list cloudstore.Stack) (st : cloudstore.Stack)
  (post : list cloudstore.Stack) :
  Forall (fun st => validateStackStatus st = true) pre ->
  validateStackStatus st = false ->
  forall id resp s,
    rangeStacks keep id (pre ++ st :: post) resp s
    = (Returned,
       snd ((WriteHeader http.StatusInternalServerError ;;
             writeErr (invalidStackStateError st)) s)).
Proof.
  intros Hpre Hst.
  induction Hpre as [| x rest Hx _ IH]; intros id resp s; simpl.
  - rewrite Hst. reflexivity.
  - rewrite Hx. simpl. apply IH.
Qed.

(** Every list of stacks is all valid, or splits at its first invalid
    stack. *)
Lemma first_invalid (stacks : list cloudstore.Stack) :
  Forall (fun st => validateStackStatus st = true) stacks
  \/ exists pre st post,
       stacks = pre ++ st :: post
       /\ Forall (fun st => validateStackStatus st = true) pre
       /\ validateStackStatus st = false.
Proof.
  induction stacks as [| x rest IH].
  - left. constructor.
  - destruct (validateStackStatus x) eqn:Hx.
    + destruct IH as [Hall | (pre & st & post & -> & Hpre & Hst)].
      * left. constructor; assumption.
      * right. exists (x :: pre), st, post.
        repeat split; [constructor; assumption | assumption].
    + right. exists [], x, rest. repeat split; [constructor | assumption].
Qed.

Lemma GetStacks_no_org (d : cloudstore.Data) (r : http.Request)
  (params : httprouter.Params) :
  store_model.GetOrg d (httprouter.ByName params "orguuid") = None ->
  serve (GetStacks r params) d
  = (Returned,
     {| w := answered http.StatusNotFound []
               [http.WString "organization not found"];
        store := d;
        calls := [CallGetOrg (httprouter.ByName params "orguuid")] |}).
Proof.
  intro Horg. unfold GetStacks. run_handler. rewrite Horg. reflexivity.
Qed.

Lemma GetStacks_unrecognized (d : cloudstore.Data) (r : http.Request)
  (params : httprouter.Params) (org : cloudstore.Org) :
  store_model.GetOrg d (httprouter.ByName params "orguuid") = Some org ->
  http.FormValue r "status" <> "" ->
  stack.Is (stack.NewStatusFilter NewStatus (http.FormValue r "status"))
           stack.Unrecognized = true ->
  serve (GetStacks r params) d
  = (Returned,
     {| w := answered http.StatusBadRequest []
               [http.WErr (ErrInvalidStatus (http.FormValue r "status"))];
        store := d;
        calls := [CallGetOrg (httprouter.ByName params "orguuid")] |}).
Proof.
  intros Horg Hne Hun. unfold GetStacks. run_handler. rewrite Horg.
  apply String.eqb_neq in Hne. rewrite Hne. simpl. rewrite Hun.
  reflexivity.
Qed.

Lemma GetStacks_past_filter (d : cloudstore.Data) (r : http.Request)
  (params : httprouter.Params) (org : cloudstore.Org) :
  store_model.GetOrg d (httprouter.ByName params "orguuid") = Some org ->
  tokenAccepted (http.FormValue r "status") ->
  serve (GetStacks r params) d
  = match rangeStacks (keeps r) 0 (cloudstore.Stacks org) []
            {| w := http.newResponseWriter; store := d;
               calls := [CallGetOrg (httprouter.ByName params "orguuid")] |}
    with
    | (Next resp, s') =>
        (HeaderAdd "Content-Type" "application/json" ;;
         write (http.WStacks {| cloud.Stacks := sortSlice resp |})) s'
    | (Returned, s') => (Returned, s')
    | (Panicked, s') => (Panicked, s')
    end.
Proof.
  intros Horg Hacc. unfold GetStacks, keeps, parsedFilter.
  unfold serve, store_GetOrg, record, getStore. unfold bind at 1 2 3.
  unfold ret at 1. simpl. rewrite Horg.
  destruct Hacc as [Hempty | Hrec].
  - rewrite Hempty. simpl. reflexivity.
  - destruct (String.eqb (http.FormValue r "status") "") eqn:E; simpl.
    + reflexivity.
    + rewrite Hrec. reflexivity.
Qed.

Lemma GetStacks_lists (d : cloudstore.Data) (r : http.Request)
  (params : httprouter.Params) (org : cloudstore.Org) :
  store_model.GetOrg d (httprouter.ByName params "orguuid") = Some org ->
  tokenAccepted (http.FormValue r "status") ->
  Forall (fun st => validateStackStatus st = true) (cloudstore.Stacks org) ->
  serve (GetStacks r params) d
  = (Next tt,
     {| w := answered http.StatusOK [("Content-Type", "application/json")]
               [http.WStacks
                  {| cloud.Stacks := listing (keeps r) 0 (cloudstore.Stacks org) |}];
        store := d;
        calls := [CallGetOrg (httprouter.ByName params "orguuid")] |}).
Proof.
  intros Horg Hacc Hall.
  rewrite (GetStacks_past_filter d r params org Horg Hacc).
  rewrite (rangeStacks_valid _ _ Hall). simpl.
  rewrite sortSlice_listing. reflexivity.
Qed.

Lemma GetStacks_invalid_state (d : cloudstore.Data) (r : http.Request)
  (params : httprouter.Params) (org : cloudstore.Org)
  (pre : list cloudstore.Stack) (st : cloudstore.Stack)
  (post : list cloudstore.Stack) :
  store_model.GetOrg d (httprouter.ByName params "orguuid") = Some org ->
  tokenAccepted (http.FormValue r "status") ->
  cloudstore.Stacks org = pre ++ st :: post ->
  Forall (fun st => validateStackStatus st = true) pre ->
  validateStackStatus st = false ->
  serve (GetStacks r params) d
  = (Returned,
     {| w := answered http.StatusInternalServerError []
               [http.WErr (invalidStackStateError st)];
        store := d;
        calls := [CallGetOrg (httprouter.ByName params "orguuid")] |}).
Proof.
  intros Horg Hacc Hsplit Hpre Hst.
  rewrite (GetStacks_past_filter d r params org Horg Hacc).
  rewrite Hsplit, (rangeStacks_invalid _ pre st post Hpre Hst).
  reflexivity.
Qed.

Lemma Is_Unrecognized_iff (token : string) :
  stack.Is (stack.NewStatusFilter NewStatus token) stack.Unrecognized = true
  <-> ~ recognizedToken token.
Proof.
  unfold stack.NewStatusFilter, recognizedToken.
  destruct (String.eqb token "unhealthy") eqn:EU.
  { apply String.eqb_eq in EU. split; [discriminate | tauto]. }
  destruct (String.eqb token "healthy") eqn:EH.
  { apply String.eqb_eq in EH. split; [discriminate | tauto]. }
  apply String.eqb_neq in EU, EH.
  rewrite Is_Unrecognized_FilterStatus.
  destruct (NewStatus token); split; intro H;
    first [ discriminate H
          | reflexivity
          | solve [intros [? | [? | Hn]]; congruence]
          | solve [exfalso; apply H; right; right; discriminate] ].
Qed.

Lemma accepted_of_recognized (token : string) :
  recognizedToken token -> tokenAccepted token.
Proof.
  intro Hr. right.
  destruct (stack.Is _ _) eqn:E; [| reflexivity].
  apply Is_Unrecognized_iff in E. contradiction.
Qed.

Lemma token_accepted_or_not (token : string) :
  tokenAccepted token
  \/ (token <> ""
      /\ stack.Is (stack.NewStatusFilter NewStatus token) stack.Unrecognized
         = true).
Proof.
  destruct (String.eqb token "") eqn:E.
  - left. left. apply String.eqb_eq. exact E.
  - destruct (stack.Is (stack.NewStatusFilter NewStatus token)
                       stack.Unrecognized) eqn:EI.
    + right. split; [apply String.eqb_neq; exact E | reflexivity].
    + left. right. exact EI.
Qed.

(** The combinations (Unknown, Pending), (Failed, Failed) and (Failed,
    Canceled), and every combination with the deployment status Unknown,
    have no entry. *)
Example absent_pairs_named :
  Classify drift.Unknown deployment.Pending = None
  /\ Classify drift.Failed deployment.Failed = None
  /\ Classify drift.Failed deployment.Canceled = None
  /\ (forall d, Classify d deployment.Unknown = None).
Proof.
  repeat split. intro d. destruct d; reflexivity.
Qed.

(** C2.  A (drift, deployment) pair that the classification table does
    not list has no status: the double index into [stateTable] is "not
    ok" (nothing stands in for the missing entry), [validateStackStatus]
    rejects every stored stack with that pair, and a listing that reaches
    such a stack answers 500 with the invalid-state error naming the
    stack's drift, deployment and status. *)
Theorem absent_pair_is_invalid_state :
  forall (d : drift.Status) (p : deployment.Status),
    ~ listed_pair d p ->
    Classify d p = None
    /\ forall st : cloudstore.Stack,
         cloudstore.DriftStatus (cloudstore.State st) = d ->
         cloudstore.DeploymentStatus (cloudstore.State st) = p ->
         validateStackStatus st = false
         /\ forall (data : cloudstore.Data) (r : http.Request)
                   (params : httprouter.Params) (org : cloudstore.Org)
                   (pre post : list cloudstore.Stack),
              store_model.GetOrg data (httprouter.ByName params "orguuid")
              = Some org ->
              tokenAccepted (http.FormValue r "status") ->
              cloudstore.Stacks org = pre ++ st :: post ->
              Forall (fun x => validateStackStatus x = true) pre ->
              serve (GetStacks r params) data
              = (Returned,
                 {| w := answered http.StatusInternalServerError []
                           [http.WErr
                              (ErrInvalidStackState d p
                                 (cloudstore.Status (cloudstore.State st)))];
                    store := data;
                    calls :=
                      [CallGetOrg (httprouter.ByName params "orguuid")] |}).
Proof.
  intros d p Habsent.
  split; [apply Classify_None; exact Habsent |].
  intros st Hd Hp.
  assert (Hst : validateStackStatus st = false).
  { apply validateStackStatus_false. rewrite Hd, Hp. exact Habsent. }
  split; [exact Hst |].
  intros data r params org pre post Horg Hacc Hsplit Hpre.
  rewrite (GetStacks_invalid_state data r params org pre st post
             Horg Hacc Hsplit Hpre Hst).
  unfold invalidStackStateError. rewrite Hd, Hp. reflexivity.
Qed.

(** C4, as the code has it.  A stored stack with an invalid (drift,
    deployment) combination aborts the whole listing of its organization:
    whatever the filters of the request, GetStacks returns early and lists
    no stack at all, the valid ones included.  When the status filter is
    absent or names a filter, the answer is 500 with the invalid-state
    error of the first stack, in the order of the store, whose combination
    is invalid; a status filter that names nothing is answered 400. *)
Theorem invalid_stack_aborts_listing :
  forall (data : cloudstore.Data) (r : http.Request)
         (params : httprouter.Params) (org : cloudstore.Org)
         (st : cloudstore.Stack),
    store_model.GetOrg data (httprouter.ByName params "orguuid") = Some org ->
    In st (cloudstore.Stacks org) ->
    validateStackStatus st = false ->
    fst (serve (GetStacks r params) data) = Returned
    /\ listedStacks (w (snd (serve (GetStacks r params) data))) = None
    /\ (http.FormValue r "status" = ""
        \/ recognizedToken (http.FormValue r "status") ->
        exists (pre : list cloudstore.Stack) (bad : cloudstore.Stack)
               (post : list cloudstore.Stack),
          cloudstore.Stacks org = pre ++ bad :: post
          /\ Forall (fun x => validateStackStatus x = true) pre
          /\ validateStackStatus bad = false
          /\ serve (GetStacks r params) data
             = (Returned,
                {| w := answered http.StatusInternalServerError []
                          [http.WErr (invalidStackStateError bad)];
                   store := data;
                   calls :=
                     [CallGetOrg (httprouter.ByName params "orguuid")] |}))
    /\ (http.FormValue r "status" <> ""
        /\ ~ recognizedToken (http.FormValue r "status") ->
        http.Code (w (snd (serve (GetStacks r params) data)))
        = Some http.StatusBadRequest).
Proof.
  intros data r params org st Horg Hin Hst.
  destruct (first_invalid (cloudstore.Stacks org))
    as [Hall | (pre & bad & post & Hsplit & Hpre & Hbad)].
  { rewrite Forall_forall in Hall. apply Hall in Hin. congruence. }
  assert (H500 : tokenAccepted (http.FormValue r "status") ->
                 serve (GetStacks r params) data
                 = (Returned,
                    {| w := answered http.StatusInternalServerError []
                              [http.WErr (invalidStackStateError bad)];
                       store := data;
                       calls :=
                         [CallGetOrg (httprouter.ByName params "orguuid")] |})).
  { intro Hacc.
    exact (GetStacks_invalid_state data r params org pre bad post
             Horg Hacc Hsplit Hpre Hbad). }
  assert (Hearly : fst (serve (GetStacks r params) data) = Returned
                   /\ listedStacks (w (snd (serve (GetStacks r params) data)))
                      = None).
  { destruct (token_accepted_or_not (http.FormValue r "status"))
      as [Hacc | [Hne Hun]].
    - rewrite (H500 Hacc). split; reflexivity.
    - rewrite (GetStacks_unrecognized data r params org Horg Hne Hun).
      split; reflexivity. }
  destruct Hearly as [Hret Hnone].
  split; [exact Hret |]. split; [exact Hnone |]. split.
  - intro Htoken. exists pre, bad, post.
    split; [exact Hsplit |]. split; [exact Hpre |]. split; [exact Hbad |].
    apply H500. destruct Htoken as [Hempty | Hrec].
    + left. exact Hempty.
    + apply accepted_of_recognized. exact Hrec.
  - intros [Hne Hun]. apply Is_Unrecognized_iff in Hun.
    rewrite (GetStacks_unrecognized data r params org Horg Hne Hun).
    reflexivity.
Qed.

(** C5.  A listing of an existing organization whose status filter is a
    non-empty token that names no filter is answered 400 with the error
    "invalid status: <token>"; no stack is listed and the stacks are not
    even looked at. *)
Theorem unrecognized_filter_rejected :
  forall (data : cloudstore.Data) (r : http.Request)
         (params : httprouter.Params) (org : cloudstore.Org),
    store_model.GetOrg data (httprouter.ByName params "orguuid") = Some org ->
    http.FormValue r "status" <> "" ->
    ~ recognizedToken (http.FormValue r "status") ->
    serve (GetStacks r params) data
    = (Returned,
       {| w := answered http.StatusBadRequest []
                 [http.WErr (ErrInvalidStatus (http.FormValue r "status"))];
          store := data;
          calls := [CallGetOrg (httprouter.ByName params "orguuid")] |})
    /\ listedStacks (w (snd (serve (GetStacks r params) data))) = None.
Proof.
  intros data r params org Horg Hne Hun.
  apply Is_Unrecognized_iff in Hun.
  pose proof (GetStacks_unrecognized data r params org Horg Hne Hun) as Hrun.
  split; [exact Hrun |]. rewrite Hrun. reflexivity.
Qed.

(** ** The status filter inside a listing *)

Lemma forallb_andFilters (mask : stack.FilterStatus_t)
  (repoStr metaID : string) (st : cloudstore.Stack) :
  forallb (fun f => f st) (andFilters mask repoStr metaID)
  = statusKeep mask (cloudstore.Status (cloudstore.State st))
    && otherKeep repoStr metaID st.
Proof.
  unfold andFilters, statusKeep, otherKeep.
  destruct (mask =? stack.NoFilter), (String.eqb repoStr ""),
    (String.eqb metaID ""); simpl;
    rewrite ?andb_true_r; reflexivity.
Qed.

Lemma listing_ext (k1 k2 : cloudstore.Stack -> bool)
  (stacks : list cloudstore.Stack) :
  (forall st, k1 st = k2 st) ->
  forall id, listing k1 id stacks = listing k2 id stacks.
Proof.
  intro Hk. induction stacks as [| st rest IH]; intro id; simpl.
  - reflexivity.
  - rewrite Hk, IH. reflexivity.
Qed.

(** Adding a condition on the status to a listing keeps exactly the
    entries whose status satisfies it. *)
Lemma listing_refine (g : stack.Status -> bool)
  (keep : cloudstore.Stack -> bool) (stacks : list cloudstore.Stack) :
  forall id x,
    In x (listing
            (fun st => g (cloudstore.Status (cloudstore.State st)) && keep st)
            id stacks)
    <-> In x (listing keep id stacks) /\ g (cloud.Status x) = true.
Proof.
  induction stacks as [| st rest IH]; intros id x; simpl.
  - tauto.
  - rewrite !in_app_iff, IH.
    destruct (g (cloudstore.Status (cloudstore.State st))) eqn:Eg,
      (keep st) eqn:Ek; simpl.
    + split.
      * intros [[<- | []] | [Hin Hg]]; [| tauto].
        split; [left; left; reflexivity | exact Eg].
      * intros [[[<- | []] | Hin] Hg]; [left; left; reflexivity | tauto].
    + tauto.
    + split.
      * intros [[] | [Hin Hg]]. tauto.
      * intros [[[<- | []] | Hin] Hg]; [| tauto].
        simpl in Hg. congruence.
    + tauto.
Qed.

Lemma listing_In_stack (keep : cloudstore.Stack -> bool)
  (stacks : list cloudstore.Stack) :
  forall id x,
    In x (listing keep id stacks) ->
    exists st, In st stacks
               /\ cloud.Status x = cloudstore.Status (cloudstore.State st).
Proof.
  induction stacks as [| st rest IH]; intros id x Hin; simpl in Hin.
  - contradiction.
  - apply in_app_or in Hin. destruct Hin as [Hin | Hin].
    + destruct (keep st); simpl in Hin; [| contradiction].
      destruct Hin as [<- | []]. exists st. split; [left |]; reflexivity.
    + destruct (IH _ _ Hin) as (st' & Hin' & Heq).
      exists st'. split; [right |]; assumption.
Qed.

Lemma at_index_succ {A} (x : A) (l : list A) (i : Z) :
  0 <= i -> at_index (x :: l) (i + 1) = at_index l i.
Proof.
  intro Hi. unfold at_index.
  destruct (i + 1 <? 0) eqn:E1; [apply Z.ltb_lt in E1; lia |].
  destruct (i <? 0) eqn:E2; [apply Z.ltb_lt in E2; lia |].
  replace (i + 1) with (Z.succ i) by lia.
  rewrite Z2Nat.inj_succ by lia. reflexivity.
Qed.

(** A listing holds the stacks that are kept, each under its index. *)
Lemma In_listing (keep : cloudstore.Stack -> bool)
  (stacks : list cloudstore.Stack) :
  forall id x,
    In x (listing keep id stacks)
    <-> exists st,
          at_index stacks (cloud.ID x - id) = Some st
          /\ x = StackResponseOf (cloud.ID x) st
          /\ keep st = true.
Proof.
  induction stacks as [| st rest IH]; intros id x; simpl.
  - split; [contradiction |]. intros (st & Hat & _).
    unfold at_index in Hat. destruct (cloud.ID x - id <? 0);
      [discriminate |]. destruct (Z.to_nat (cloud.ID x - id)); discriminate.
  - rewrite in_app_iff, IH. split.
    + intros [Hhead | (st' & Hat & Hx & Hk)].
      * destruct (keep st) eqn:Ek; simpl in Hhead; [| contradiction].
        destruct Hhead as [<- | []]. simpl. exists st.
        rewrite Z.sub_diag. repeat split. exact Ek.
      * exists st'. repeat split; try assumption.
        assert (0 <= cloud.ID x - (id + 1)).
        { unfold at_index in Hat.
          destruct (cloud.ID x - (id + 1) <? 0) eqn:E; [discriminate |].
          apply Z.ltb_ge in E. exact E. }
        replace (cloud.ID x - id) with (cloud.ID x - (id + 1) + 1) by lia.
        rewrite at_index_succ by assumption. exact Hat.
    + intros (st' & Hat & Hx & Hk).
      destruct (Z.eq_dec (cloud.ID x) id) as [Heq | Hneq].
      * left. rewrite Heq, Z.sub_diag in Hat. simpl in Hat.
        injection Hat as <-. rewrite Hk. left.
        rewrite Hx, Heq. reflexivity.
      * right. exists st'. repeat split; try assumption.
        assert (0 <= cloud.ID x - id).
        { unfold at_index in Hat.
          destruct (cloud.ID x - id <? 0) eqn:E; [discriminate |].
          apply Z.ltb_ge in E. exact E. }
        replace (cloud.ID x - id) with (cloud.ID x - (id + 1) + 1) in Hat
          by lia.
        rewrite at_index_succ in Hat by lia. exact Hat.
Qed.

(** C3.  Take an organization whose stored stacks all pass the
    combination check of a listing, and two listings of it that differ
    only in the status filter, "unhealthy" and "healthy".  Both succeed.
    The "unhealthy" listing holds exactly the stored stacks whose status
    is Failed or Drifted, among those that pass the repository and meta-id
    filters, each under the ID that is its index in the store; the
    "healthy" listing holds exactly those whose status is OK.  No entry is
    in both listings.  Every stored stack that passes the other filters
    and whose status is OK, Failed or Drifted is in exactly one of the
    two; every validly classified stack is such a stack. *)
Theorem healthy_unhealthy_partition :
  forall (data : cloudstore.Data) (params : httprouter.Params)
         (org : cloudstore.Org) (rU rH : http.Request)
         (repo metaID : string),
    store_model.GetOrg data (httprouter.ByName params "orguuid") = Some org ->
    Forall (fun st => validateStackStatus st = true) (cloudstore.Stacks org) ->
    http.FormValue rU "status" = "unhealthy" ->
    http.FormValue rH "status" = "healthy" ->
    http.FormValue rU "repository" = repo ->
    http.FormValue rH "repository" = repo ->
    http.FormValue rU "meta_id" = metaID ->
    http.FormValue rH "meta_id" = metaID ->
    exists unhealthy healthy : list cloud.StackResponse,
      serve (GetStacks rU params) data
      = (Next tt,
         {| w := answered http.StatusOK [("Content-Type", "application/json")]
                   [http.WStacks {| cloud.Stacks := unhealthy |}];
            store := data;
            calls := [CallGetOrg (httprouter.ByName params "orguuid")] |})
      /\ serve (GetStacks rH params) data
         = (Next tt,
            {| w := answered http.StatusOK
                      [("Content-Type", "application/json")]
                      [http.WStacks {| cloud.Stacks := healthy |}];
               store := data;
               calls := [CallGetOrg (httprouter.ByName params "orguuid")] |})
      /\ (forall x : cloud.StackResponse,
            In x unhealthy
            <-> exists st : cloudstore.Stack,
                  at_index (cloudstore.Stacks org) (cloud.ID x) = Some st
                  /\ x = StackResponseOf (cloud.ID x) st
                  /\ (repo = ""
                      \/ cloud.Repository (cloudstore.Stack_ st) = repo)
                  /\ (metaID = ""
                      \/ cloud.MetaID (cloudstore.Stack_ st) = metaID)
                  /\ (cloudstore.Status (cloudstore.State st) = stack.Failed
                      \/ cloudstore.Status (cloudstore.State st)
                         = stack.Drifted))
      /\ (forall x : cloud.StackResponse,
            In x healthy
            <-> exists st : cloudstore.Stack,
                  at_index (cloudstore.Stacks org) (cloud.ID x) = Some st
                  /\ x = StackResponseOf (cloud.ID x) st
                  /\ (repo = ""
                      \/ cloud.Repository (cloudstore.Stack_ st) = repo)
                  /\ (metaID = ""
                      \/ cloud.MetaID (cloudstore.Stack_ st) = metaID)
                  /\ cloudstore.Status (cloudstore.State st) = stack.OK)
      /\ (forall x : cloud.StackResponse, ~ (In x unhealthy /\ In x healthy))
      /\ (forall (i : Z) (st : cloudstore.Stack),
            at_index (cloudstore.Stacks org) i = Some st ->
            repo = "" \/ cloud.Repository (cloudstore.Stack_ st) = repo ->
            metaID = "" \/ cloud.MetaID (cloudstore.Stack_ st) = metaID ->
            cloudstore.Status (cloudstore.State st) = stack.OK
            \/ cloudstore.Status (cloudstore.State st) = stack.Failed
            \/ cloudstore.Status (cloudstore.State st) = stack.Drifted ->
            (In (StackResponseOf i st) unhealthy
             /\ ~ In (StackResponseOf i st) healthy)
            \/ (In (StackResponseOf i st) healthy
                /\ ~ In (StackResponseOf i st) unhealthy))
      /\ (forall st : cloudstore.Stack,
            validlyClassified st ->
            cloudstore.Status (cloudstore.State st) = stack.OK
            \/ cloudstore.Status (cloudstore.State st) = stack.Failed
            \/ cloudstore.Status (cloudstore.State st) = stack.Drifted).
Proof.
  intros data params org rU rH repo metaID
    Horg Hall HU HH HUr HHr HUm HHm.
  assert (Hother : forall st,
             otherKeep repo metaID st = true
             <-> (repo = ""
                  \/ cloud.Repository (cloudstore.Stack_ st) = repo)
                 /\ (metaID = ""
                     \/ cloud.MetaID (cloudstore.Stack_ st) = metaID)).
  { intro st. unfold otherKeep.
    rewrite andb_true_iff, !orb_true_iff, !String.eqb_eq. reflexivity. }
  assert (HkU : forall st,
             keeps rU st = true
             <-> (repo = ""
                  \/ cloud.Repository (cloudstore.Stack_ st) = repo)
                 /\ (metaID = ""
                     \/ cloud.MetaID (cloudstore.Stack_ st) = metaID)
                 /\ (cloudstore.Status (cloudstore.State st) = stack.Failed
                     \/ cloudstore.Status (cloudstore.State st)
                        = stack.Drifted)).
  { intro st. unfold keeps.
    rewrite forallb_andFilters, HU, HUr, HUm, andb_true_iff, Hother.
    change (statusKeep (parsedFilter "unhealthy")
              (cloudstore.Status (cloudstore.State st)))
      with (negb (Z.land (stack.FilterStatus
                            (cloudstore.Status (cloudstore.State st)))
                         stack.UnhealthyFilter =? 0)).
    rewrite unhealthy_matches. tauto. }
  assert (HkH : forall st,
             keeps rH st = true
             <-> (repo = ""
                  \/ cloud.Repository (cloudstore.Stack_ st) = repo)
                 /\ (metaID = ""
                     \/ cloud.MetaID (cloudstore.Stack_ st) = metaID)
                 /\ cloudstore.Status (cloudstore.State st) = stack.OK).
  { intro st. unfold keeps.
    rewrite forallb_andFilters, HH, HHr, HHm, andb_true_iff, Hother.
    change (statusKeep (parsedFilter "healthy")
              (cloudstore.Status (cloudstore.State st)))
      with (negb (Z.land (stack.FilterStatus
                            (cloudstore.Status (cloudstore.State st)))
                         stack.HealthyFilter =? 0)).
    rewrite healthy_matches. tauto. }
  exists (listing (keeps rU) 0 (cloudstore.Stacks org)),
         (listing (keeps rH) 0 (cloudstore.Stacks org)).
  assert (HinU : forall x,
             In x (listing (keeps rU) 0 (cloudstore.Stacks org))
             <-> exists st,
                   at_index (cloudstore.Stacks org) (cloud.ID x) = Some st
                   /\ x = StackResponseOf (cloud.ID x) st
                   /\ (repo = ""
                       \/ cloud.Repository (cloudstore.Stack_ st) = repo)
                   /\ (metaID = ""
                       \/ cloud.MetaID (cloudstore.Stack_ st) = metaID)
                   /\ (cloudstore.Status (cloudstore.State st) = stack.Failed
                       \/ cloudstore.Status (cloudstore.State st)
                          = stack.Drifted)).
  { intro x. rewrite In_listing, Z.sub_0_r.
    split; intros (st & Hat & Hx & Hk); exists st;
      (split; [exact Hat |]); (split; [exact Hx |]);
      apply HkU in Hk || apply HkU; tauto. }
  assert (HinH : forall x,
             In x (listing (keeps rH) 0 (cloudstore.Stacks org))
             <-> exists st,
                   at_index (cloudstore.Stacks org) (cloud.ID x) = Some st
                   /\ x = StackResponseOf (cloud.ID x) st
                   /\ (repo = ""
                       \/ cloud.Repository (cloudstore.Stack_ st) = repo)
                   /\ (metaID = ""
                       \/ cloud.MetaID (cloudstore.Stack_ st) = metaID)
                   /\ cloudstore.Status (cloudstore.State st) = stack.OK).
  { intro x. rewrite In_listing, Z.sub_0_r.
    split; intros (st & Hat & Hx & Hk); exists st;
      (split; [exact Hat |]); (split; [exact Hx |]);
      apply HkH in Hk || apply HkH; tauto. }
  assert (Hdisj : forall x,
             ~ (In x (listing (keeps rU) 0 (cloudstore.Stacks org))
                /\ In x (listing (keeps rH) 0 (cloudstore.Stacks org)))).
  { intros x [HxU HxH].
    apply HinU in HxU. apply HinH in HxH.
    destruct HxU as (st & Hat & _ & _ & _ & Hbad).
    destruct HxH as (st' & Hat' & _ & _ & _ & Hok).
    rewrite Hat in Hat'. injection Hat' as <-.
    destruct Hbad as [HF | HD]; congruence. }
  split; [| split; [| split; [| split; [| split; [| split]]]]].
  - apply (GetStacks_lists data rU params org Horg); [| exact Hall].
    rewrite HU. right. reflexivity.
  - apply (GetStacks_lists data rH params org Horg); [| exact Hall].
    rewrite HH. right. reflexivity.
  - exact HinU.
  - exact HinH.
  - exact Hdisj.
  - intros i st Hat Hrepo Hmeta Hstatus.
    assert (HU' : cloudstore.Status (cloudstore.State st) = stack.Failed
                  \/ cloudstore.Status (cloudstore.State st) = stack.Drifted ->
                  In (StackResponseOf i st)
                     (listing (keeps rU) 0 (cloudstore.Stacks org))).
    { intro Hs. apply HinU. exists st. simpl. tauto. }
    assert (HH' : cloudstore.Status (cloudstore.State st) = stack.OK ->
                  In (StackResponseOf i st)
                     (listing (keeps rH) 0 (cloudstore.Stacks org))).
    { intro Hs. apply HinH. exists st. simpl. tauto. }
    destruct Hstatus as [HO | HFD].
    + right. split; [apply HH'; exact HO |].
      intro Hin. apply (Hdisj (StackResponseOf i st)).
      split; [exact Hin | apply HH'; exact HO].
    + left. split; [apply HU'; tauto |].
      intro Hin. apply (Hdisj (StackResponseOf i st)).
      split; [apply HU'; tauto | exact Hin].
  - intros st Hvalid. exact (Classify_range _ _ _ Hvalid).
Qed.

(** ** PutStack *)

Lemma upsert_at (st : cloudstore.Stack) (stacks : list cloudstore.Stack) :
  forall pos,
    pos <= snd (store_model.upsert st stacks pos)
    /\ at_index (fst (store_model.upsert st stacks pos))
                (snd (store_model.upsert st stacks pos) - pos)
       = Some st.
Proof.
  induction stacks as [| s rest IH]; intro pos; simpl.
  - split; [lia |]. rewrite Z.sub_diag. reflexivity.
  - destruct (store_model.sameStack s st); simpl.
    + split; [lia |]. rewrite Z.sub_diag. reflexivity.
    + specialize (IH (pos + 1)).
      destruct (store_model.upsert st rest (pos + 1)) as [rest' id] eqn:E.
      simpl in *. destruct IH as [Hle Hat]. split; [lia |].
      replace (id - pos) with (id - (pos + 1) + 1) by lia.
      rewrite at_index_succ by lia. exact Hat.
Qed.

Lemma index_setOrg (orgs : list (UUID * cloudstore.Org)) (orguuid : UUID)
  (org org' : cloudstore.Org) :
  index String.eqb orgs orguuid = Some org ->
  index String.eqb (store_model.setOrg orgs orguuid org') orguuid
  = Some org'.
Proof.
  induction orgs as [| [k o] rest IH]; simpl; intro H.
  - discriminate.
  - destruct (String.eqb k orguuid) eqn:E; simpl; rewrite E.
    + reflexivity.
    + apply IH. exact H.
Qed.

(** What PutStack does with a body that decodes, for an organization that
    exists. *)
Lemma PutStack_run :
  forall (data : cloudstore.Data) (r : http.Request)
         (p : httprouter.Params) (bodyData : string)
         (st : cloud.StackResponse) (org : cloudstore.Org),
    http.Body r = Some bodyData ->
    unmarshalStackResponse bodyData = Some st ->
    store_model.GetOrg data (httprouter.ByName p "orguuid") = Some org ->
    exists (id : Z) (data' : cloudstore.Data) (org' : cloudstore.Org)
           (rec : cloudstore.Stack),
      serve (PutStack r p) data
      = (Next tt,
         {| w := {| http.Code := Some http.StatusNoContent;
                    http.Header := []; http.Out := [] |};
            store := data';
            calls := [CallUpsertStack (httprouter.ByName p "orguuid") rec] |})
      /\ store_model.GetOrg data' (httprouter.ByName p "orguuid") = Some org'
      /\ at_index (cloudstore.Stacks org') id = Some rec
      /\ cloudstore.Stack_ rec = cloud.Stack_ st
      /\ cloudstore.Status (cloudstore.State rec) = cloud.Status st
      /\ cloudstore.DriftStatus (cloudstore.State rec) = zeroDriftStatus
      /\ cloudstore.DeploymentStatus (cloudstore.State rec)
         = zeroDeploymentStatus
      /\ (validlyClassified rec
          <-> Classify zeroDriftStatus zeroDeploymentStatus
              = Some (cloud.Status st)).
Proof.
  intros data r p bodyData st org Hbody Hdec Horg.
  set (rec := {| cloudstore.Stack_ := cloud.Stack_ st;
                 cloudstore.State :=
                   {| cloudstore.Status := cloud.Status st;
                      cloudstore.DeploymentStatus := zeroDeploymentStatus;
                      cloudstore.DriftStatus := zeroDriftStatus;
                      cloudstore.CreatedAt := cloud.CreatedAt st;
                      cloudstore.UpdatedAt := cloud.UpdatedAt st;
                      cloudstore.SeenAt := cloud.SeenAt st |} |}).
  pose proof (upsert_at rec (cloudstore.Stacks org) 0) as [_ Hat].
  destruct (store_model.upsert rec (cloudstore.Stacks org) 0)
    as [stacks id] eqn:Eup.
  simpl in Hat. rewrite Z.sub_0_r in Hat.
  exists id.
  exists {| cloudstore.Orgs :=
              store_model.setOrg (cloudstore.Orgs data)
                (httprouter.ByName p "orguuid")
                {| cloudstore.Stacks := stacks |};
            cloudstore.Logs := cloudstore.Logs data |}.
  exists {| cloudstore.Stacks := stacks |}, rec.
  split; [| split; [| split; [| repeat split]]].
  - unfold PutStack. rewrite Hbody, Hdec. fold rec.
    unfold serve, store_UpsertStack, store_model.UpsertStack.
    unfold bind, record, getStore. simpl.
    rewrite Horg, Eup. reflexivity.
  - unfold store_model.GetOrg in *. simpl.
    apply index_setOrg with (org := org). exact Horg.
  - exact Hat.
  - intro H. exact H.
  - intro H. exact H.
Qed.


(** Two requests that differ in the status they send leave two records
    with the same (unset) drift and deployment status and different
    statuses: at most one of them is validly classified. *)
Lemma PutStack_status_not_derived :
  forall (data1 data2 : cloudstore.Data) (r1 r2 : http.Request)
         (p : httprouter.Params) (body1 body2 : string)
         (st1 st2 : cloud.StackResponse) (org1 org2 : cloudstore.Org),
    http.Body r1 = Some body1 -> http.Body r2 = Some body2 ->
    unmarshalStackResponse body1 = Some st1 ->
    unmarshalStackResponse body2 = Some st2 ->
    cloud.Status st1 <> cloud.Status st2 ->
    store_model.GetOrg data1 (httprouter.ByName p "orguuid") = Some org1 ->
    store_model.GetOrg data2 (httprouter.ByName p "orguuid") = Some org2 ->
    exists rec1 rec2 : cloudstore.Stack,
      calls (snd (serve (PutStack r1 p) data1))
      = [CallUpsertStack (httprouter.ByName p "orguuid") rec1]
      /\ calls (snd (serve (PutStack r2 p) data2))
         = [CallUpsertStack (httprouter.ByName p "orguuid") rec2]
      /\ fst (serve (PutStack r1 p) data1) = Next tt
      /\ fst (serve (PutStack r2 p) data2) = Next tt
      /\ ~ (validlyClassified rec1 /\ validlyClassified rec2).
Proof.
  intros data1 data2 r1 r2 p body1 body2 st1 st2 org1 org2
    Hb1 Hb2 Hd1 Hd2 Hneq Ho1 Ho2.
  destruct (PutStack_run data1 r1 p body1 st1 org1 Hb1 Hd1 Ho1)
    as (id1 & d1' & o1' & rec1 & Hrun1 & _ & _ & _ & _ & _ & _ & Hv1).
  destruct (PutStack_run data2 r2 p body2 st2 org2 Hb2 Hd2 Ho2)
    as (id2 & d2' & o2' & rec2 & Hrun2 & _ & _ & _ & _ & _ & _ & Hv2).
  exists rec1, rec2. rewrite Hrun1, Hrun2. simpl.
  repeat split.
  intros [H1 H2]. apply Hv1 in H1. apply Hv2 in H2. congruence.
Qed.

(** ** The live tail *)

Lemma wrote_nil (rw : http.ResponseWriter) : wrote [] rw = rw.
Proof. destruct rw. unfold wrote. simpl. rewrite app_nil_r. reflexivity. Qed.

Lemma write_wrote (x : http.Written) (s : World) :
  write x s
  = (Next tt, {| w := wrote [x] (w s); store := store s; calls := calls s |}).
Proof. reflexivity. Qed.

Lemma wrote_app (xs ys : list http.Written) (rw : http.ResponseWriter) :
  wrote ys (wrote xs rw) = wrote (xs ++ ys) rw.
Proof.
  destruct rw as [code header out]. unfold wrote. simpl.
  rewrite <- app_assoc.
  destruct xs as [| x xs], ys as [| y ys]; simpl;
    try rewrite app_nil_r; destruct code; reflexivity.
Qed.

Lemma emitLogs_run (logs : cloud.DeploymentLogs) :
  forall line s,
    emitLogs logs line s
    = (Next (line + len logs),
       {| w := wrote (map http.WLogLine logs) (w s);
          store := store s; calls := calls s |}).
Proof.
  induction logs as [| l rest IH]; intros line s.
  - simpl. unfold ret, len. simpl. rewrite Z.add_0_r, wrote_nil.
    destruct s. reflexivity.
  - simpl. unfold bind. rewrite write_wrote, IH. simpl.
    rewrite wrote_app. unfold len. simpl List.length.
    rewrite Nat2Z.inj_succ. f_equal. f_equal. lia.
Qed.


Lemma tailStep_run (orguuid : UUID) (metaID : string) (deploymentUUID : UUID)
  (line : Z) (s : World) :
  let res := data_GetDeploymentLogs (store s) orguuid metaID deploymentUUID
               line in
  tailStep orguuid metaID deploymentUUID line s
  = (match res with
     | Ok logs => Next (line + len logs)
     | Err _ => Returned
     end,
     {| w := wrote (turnEvents res) (w s);
        store := store s;
        calls := calls s
                 ++ [CallGetDeploymentLogs orguuid metaID deploymentUUID line] |}).
Proof.
  intro res. unfold tailStep, store_GetDeploymentLogs.
  unfold bind at 1 2 3. unfold record, getStore, ret at 1. simpl.
  fold res. destruct res as [logs | e].
  - unfold bind. rewrite emitLogs_run. destruct logs as [| l rest].
    + cbn [map]. rewrite wrote_nil. reflexivity.
    + reflexivity.
  - reflexivity.
Qed.



(** ** The deployment-log handlers *)

Arguments Atoi : simpl never.

Lemma Atoi_parsed_nonempty (s : string) (n : Z) :
  Atoi s = (n, None) -> String.eqb s "" = false.
Proof.
  intro H. destruct (String.eqb s "") eqn:E; [| reflexivity].
  apply String.eqb_eq in E. subst s. discriminate H.
Qed.

Lemma out_of_range_test {A} (l : list A) (n : Z) :
  n < 0 \/ len l <= n -> (n <? 0) || (len l <=? n) = true.
Proof.
  intros [H | H]; apply orb_true_iff; [left | right].
  - apply Z.ltb_lt. exact H.
  - apply Z.leb_le. exact H.
Qed.

Lemma at_index_in_range {A} (l : list A) (n : Z) :
  (n <? 0) || (len l <=? n) = false -> exists x, at_index l n = Some x.
Proof.
  intro H. apply orb_false_iff in H. destruct H as [H0 Hlen].
  apply Z.ltb_ge in H0. apply Z.leb_gt in Hlen.
  unfold at_index. apply Z.ltb_ge in H0. rewrite H0.
  unfold len in Hlen.
  destruct (nth_error l (Z.to_nat n)) as [x |] eqn:E.
  - exists x. reflexivity.
  - apply nth_error_None in E. apply Z.ltb_ge in H0. lia.
Qed.

Lemma GetDeploymentLogs_stack_not_found (data : cloudstore.Data)
  (p : httprouter.Params) (n : Z) (org : cloudstore.Org) :
  Atoi (httprouter.ByName p "stackid") = (n, None) ->
  store_model.GetOrg data (httprouter.ByName p "orguuid") = Some org ->
  n < 0 \/ len (cloudstore.Stacks org) <= n ->
  serve (GetDeploymentLogs p) data
  = (Returned,
     {| w := answered http.StatusNotFound [] [http.WErr ErrStackNotFound];
        store := data;
        calls := [CallGetOrg (httprouter.ByName p "orguuid")] |}).
Proof.
  intros HA Horg Hrange.
  pose proof (Atoi_parsed_nonempty _ _ HA) as Hne.
  apply out_of_range_test in Hrange.
  unfold GetDeploymentLogs. rewrite Hne, HA. run_handler.
  rewrite Horg, Hrange. reflexivity.
Qed.

Lemma GetDeploymentLogsEvents_stack_not_found
  (sleeps : list (cloudstore.Data -> cloudstore.Data))
  (data : cloudstore.Data) (p : httprouter.Params) (n : Z)
  (org : cloudstore.Org) :
  Atoi (httprouter.ByName p "stackid") = (n, None) ->
  store_model.GetOrg data (httprouter.ByName p "orguuid") = Some org ->
  n < 0 \/ len (cloudstore.Stacks org) <= n ->
  serve (GetDeploymentLogsEvents sleeps p) data
  = (Returned,
     {| w := answered http.StatusNotFound
               [("Cache-Control", "no-cache"); ("Connection", "keep-alive");
                ("Content-Type", "text/event-stream")]
               [http.WErr ErrStackNotFound];
        store := data;
        calls := [CallGetOrg (httprouter.ByName p "orguuid")] |}).
Proof.
  intros HA Horg Hrange.
  pose proof (Atoi_parsed_nonempty _ _ HA) as Hne.
  apply out_of_range_test in Hrange.
  unfold GetDeploymentLogsEvents. run_handler.
  rewrite Horg, Hne, HA. simpl. rewrite Hrange. reflexivity.
Qed.

Lemma PostDeploymentLogs_stack_not_found (data : cloudstore.Data)
  (r : http.Request) (p : httprouter.Params) (n : Z)
  (org : cloudstore.Org) :
  Atoi (httprouter.ByName p "stackid") = (n, None) ->
  store_model.GetOrg data (httprouter.ByName p "orguuid") = Some org ->
  n < 0 \/ len (cloudstore.Stacks org) <= n ->
  serve (PostDeploymentLogs r p) data
  = (Returned,
     {| w := answered http.StatusNotFound [] [http.WErr ErrStackNotFound];
        store := data;
        calls := [CallGetOrg (httprouter.ByName p "orguuid")] |}).
Proof.
  intros HA Horg Hrange.
  pose proof (Atoi_parsed_nonempty _ _ HA) as Hne.
  apply out_of_range_test in Hrange.
  unfold PostDeploymentLogs. rewrite Hne, HA. run_handler.
  rewrite Horg, Hrange. reflexivity.
Qed.

(** The handlers never index the stacks out of range. *)

Lemma GetDeploymentLogs_no_panic (data : cloudstore.Data)
  (p : httprouter.Params) :
  fst (serve (GetDeploymentLogs p) data) <> Panicked.
Proof.
  unfold GetDeploymentLogs.
  destruct (String.eqb (httprouter.ByName p "stackid") "");
    [run_handler; discriminate |].
  destruct (Atoi (httprouter.ByName p "stackid")) as [n [e |]];
    run_handler;
    (destruct (store_model.GetOrg data (httprouter.ByName p "orguuid"))
       as [org |]; simpl; [| discriminate]);
    (destruct ((n <? 0) || (len (cloudstore.Stacks org) <=? n)) eqn:Hr;
       simpl; [discriminate |]);
    destruct (at_index_in_range _ _ Hr) as [st Hst]; rewrite Hst; simpl;
    (destruct (data_GetDeploymentLogs _ _ _ _ _) as [logs | e'];
       simpl; [| discriminate]);
    destruct (marshalIndentFails logs); simpl; discriminate.
Qed.

Lemma tailLoop_no_panic
  (sleeps : list (cloudstore.Data -> cloudstore.Data)) (orguuid : UUID)
  (metaID : string) (deploymentUUID : UUID) :
  forall line s,
    fst (tailLoop sleeps orguuid metaID deploymentUUID line s) <> Panicked.
Proof.
  induction sleeps as [| during rest IH]; intros line s; simpl.
  - discriminate.
  - unfold bind. rewrite tailStep_run.
    destruct (data_GetDeploymentLogs _ _ _ _ _) as [logs | e]; simpl.
    + apply IH.
    + discriminate.
Qed.

Lemma GetDeploymentLogsEvents_no_panic
  (sleeps : list (cloudstore.Data -> cloudstore.Data))
  (data : cloudstore.Data) (p : httprouter.Params) :
  fst (serve (GetDeploymentLogsEvents sleeps p) data) <> Panicked.
Proof.
  unfold GetDeploymentLogsEvents. run_handler.
  destruct (store_model.GetOrg data (httprouter.ByName p "orguuid"))
    as [org |]; simpl; [| discriminate].
  destruct (String.eqb (httprouter.ByName p "stackid") "");
    simpl; [discriminate |].
  destruct (Atoi (httprouter.ByName p "stackid")) as [n [e |]]; simpl;
    (destruct ((n <? 0) || (len (cloudstore.Stacks org) <=? n)) eqn:Hr;
       simpl; [discriminate |]);
    destruct (at_index_in_range _ _ Hr) as [st Hst]; rewrite Hst;
    apply tailLoop_no_panic.
Qed.

Lemma PostDeploymentLogs_no_panic (data : cloudstore.Data)
  (r : http.Request) (p : httprouter.Params) :
  fst (serve (PostDeploymentLogs r p) data) <> Panicked.
Proof.
  unfold PostDeploymentLogs.
  destruct (String.eqb (httprouter.ByName p "stackid") "");
    [run_handler; discriminate |].
  destruct (Atoi (httprouter.ByName p "stackid")) as [n [e |]];
    run_handler; [discriminate |].
  destruct (store_model.GetOrg data (httprouter.ByName p "orguuid"))
    as [org |]; simpl; [| discriminate].
  destruct ((n <? 0) || (len (cloudstore.Stacks org) <=? n)) eqn:Hr;
    simpl; [discriminate |].
  destruct (at_index_in_range _ _ Hr) as [st Hst]. rewrite Hst. simpl.
  destruct (http.Body r) as [bodyData |]; simpl; [| discriminate].
  destruct (unmarshalDeploymentLogs bodyData) as [logs |];
    simpl; [| discriminate].
  destruct (data_InsertDeploymentLogs _ _ _ _ _) as [d' | e];
    simpl; discriminate.
Qed.

(** C9.  For a deployment-logs request (fetch, live tail or append) to an
    existing organization, whose stack id parses as an integer that is
    negative or not below the number of the organization's stacks, the
    handler answers 404 "stack not found", touches no log and returns.
    And whatever the request, none of the three handlers indexes the
    organization's stacks out of range. *)
Theorem stack_id_out_of_range_not_found :
  (forall (data : cloudstore.Data) (r : http.Request)
          (p : httprouter.Params)
          (sleeps : list (cloudstore.Data -> cloudstore.Data))
          (n : Z) (org : cloudstore.Org),
     Atoi (httprouter.ByName p "stackid") = (n, None) ->
     store_model.GetOrg data (httprouter.ByName p "orguuid") = Some org ->
     n < 0 \/ len (cloudstore.Stacks org) <= n ->
     serve (GetDeploymentLogs p) data
     = (Returned,
        {| w := answered http.StatusNotFound [] [http.WErr ErrStackNotFound];
           store := data;
           calls := [CallGetOrg (httprouter.ByName p "orguuid")] |})
     /\ serve (GetDeploymentLogsEvents sleeps p) data
        = (Returned,
           {| w := answered http.StatusNotFound
                     [("Cache-Control", "no-cache");
                      ("Connection", "keep-alive");
                      ("Content-Type", "text/event-stream")]
                     [http.WErr ErrStackNotFound];
              store := data;
              calls := [CallGetOrg (httprouter.ByName p "orguuid")] |})
     /\ serve (PostDeploymentLogs r p) data
        = (Returned,
           {| w := answered http.StatusNotFound []
                     [http.WErr ErrStackNotFound];
              store := data;
              calls := [CallGetOrg (httprouter.ByName p "orguuid")] |}))
  /\ (forall (data : cloudstore.Data) (r : http.Request)
             (p : httprouter.Params)
             (sleeps : list (cloudstore.Data -> cloudstore.Data)),
        fst (serve (GetDeploymentLogs p) data) <> Panicked
        /\ fst (serve (GetDeploymentLogsEvents sleeps p) data) <> Panicked
        /\ fst (serve (PostDeploymentLogs r p) data) <> Panicked).
Proof.
  split.
  - intros data r p sleeps n org HA Horg Hrange.
    split; [| split].
    + exact (GetDeploymentLogs_stack_not_found data p n org HA Horg Hrange).
    + exact (GetDeploymentLogsEvents_stack_not_found sleeps data p n org
               HA Horg Hrange).
    + exact (PostDeploymentLogs_stack_not_found data r p n org
               HA Horg Hrange).
  - intros data r p sleeps. split; [| split].
    + apply GetDeploymentLogs_no_panic.
    + apply GetDeploymentLogsEvents_no_panic.
    + apply PostDeploymentLogs_no_panic.
Qed.

(** X23.  A stack id that does not parse: the append handler answers 400
    with the parse error and returns, before it looks at the store. *)
Lemma PostDeploymentLogs_bad_stackid (data : cloudstore.Data)
  (r : http.Request) (p : httprouter.Params) (n : Z) (e : error) :
  httprouter.ByName p "stackid" <> "" ->
  Atoi (httprouter.ByName p "stackid") = (n, Some e) ->
  serve (PostDeploymentLogs r p) data
  = (Returned,
     {| w := answered http.StatusBadRequest [] [http.WErr e];
        store := data;
        calls := [] |}).
Proof.
  intros Hne HA. apply String.eqb_neq in Hne.
  unfold PostDeploymentLogs. rewrite Hne, HA. reflexivity.
Qed.

(** The fetch handler, on the same request, writes 400 and the parse
    error and goes on with the stack id Atoi gave beside the error (0
    after a syntax error): it reads the logs of that stack and writes them
    after the error. *)
Lemma GetDeploymentLogs_bad_stackid_goes_on (data : cloudstore.Data)
  (p : httprouter.Params) (n : Z) (e : error) (org : cloudstore.Org)
  (st : cloudstore.Stack) (logs : cloud.DeploymentLogs) :
  httprouter.ByName p "stackid" <> "" ->
  Atoi (httprouter.ByName p "stackid") = (n, Some e) ->
  store_model.GetOrg data (httprouter.ByName p "orguuid") = Some org ->
  0 <= n < len (cloudstore.Stacks org) ->
  at_index (cloudstore.Stacks org) n = Some st ->
  data_GetDeploymentLogs data (httprouter.ByName p "orguuid")
    (cloud.MetaID (cloudstore.Stack_ st))
    (httprouter.ByName p "deployment_uuid") 0 = Ok logs ->
  marshalIndentFails logs = false ->
  serve (GetDeploymentLogs p) data
  = (Next tt,
     {| w := answered http.StatusBadRequest []
               [http.WErr e; http.WLogs logs];
        store := data;
        calls := [CallGetOrg (httprouter.ByName p "orguuid");
                  CallGetDeploymentLogs (httprouter.ByName p "orguuid")
                    (cloud.MetaID (cloudstore.Stack_ st))
                    (httprouter.ByName p "deployment_uuid") 0] |}).
Proof.
  intros Hne HA Horg Hn Hst Hlogs Hm. apply String.eqb_neq in Hne.
  assert (Hr : (n <? 0) || (len (cloudstore.Stacks org) <=? n) = false).
  { apply orb_false_iff. split; [apply Z.ltb_ge | apply Z.leb_gt]; lia. }
  unfold GetDeploymentLogs. rewrite Hne, HA. run_handler.
  rewrite Horg, Hr, Hst. simpl. rewrite Hlogs, Hm. reflexivity.
Qed.

(** The live tail, likewise: after 400 and the parse error it starts
    streaming the logs of the stack whose id Atoi gave beside the error. *)
Lemma GetDeploymentLogsEvents_bad_stackid_goes_on
  (data : cloudstore.Data) (p : httprouter.Params) (n : Z) (e : error)
  (org : cloudstore.Org) (st : cloudstore.Stack)
  (logs : cloud.DeploymentLogs) (during : cloudstore.Data -> cloudstore.Data) :
  httprouter.ByName p "stackid" <> "" ->
  Atoi (httprouter.ByName p "stackid") = (n, Some e) ->
  store_model.GetOrg data (httprouter.ByName p "orguuid") = Some org ->
  0 <= n < len (cloudstore.Stacks org) ->
  at_index (cloudstore.Stacks org) n = Some st ->
  data_GetDeploymentLogs data (httprouter.ByName p "orguuid")
    (cloud.MetaID (cloudstore.Stack_ st))
    (httprouter.ByName p "deployment_uuid") 0 = Ok logs ->
  logs <> [] ->
  http.Out (w (snd (serve (GetDeploymentLogsEvents [during] p) data)))
  = http.WErr e :: map http.WLogLine logs
  /\ http.Code (w (snd (serve (GetDeploymentLogsEvents [during] p) data)))
     = Some http.StatusBadRequest.
Proof.
  intros Hne HA Horg Hn Hst Hlogs Hnil. apply String.eqb_neq in Hne.
  assert (Hr : (n <? 0) || (len (cloudstore.Stacks org) <=? n) = false).
  { apply orb_false_iff. split; [apply Z.ltb_ge | apply Z.leb_gt]; lia. }
  unfold GetDeploymentLogsEvents. run_handler.
  rewrite Horg, Hne, HA. simpl. rewrite Hr, Hst.
  unfold bind. rewrite tailStep_run. simpl. rewrite Hlogs. simpl.
  destruct logs as [| l rest]; [congruence |]. simpl. split; reflexivity.
Qed.

End HandlerFacts.

(** ** The handlers on concrete requests *)

Lemma absent_pair_is_invalid_state_witness :
  Classify drift.Failed deployment.Failed = None
  /\ serve (@GetStacks sample.externals (sample.query "") sample.org)
           sample.brokenStore
     = (Returned,
        {| w := answered http.StatusInternalServerError []
                  [http.WErr
                     (ErrInvalidStackState drift.Failed deployment.Failed
                        stack.Failed)];
           store := sample.brokenStore;
           calls := [CallGetOrg "terramate"] |}).
Proof.
  assert (Habs : ~ listed_pair drift.Failed deployment.Failed).
  { intros [s H]. simpl in H. intuition discriminate. }
  destruct (@absent_pair_is_invalid_state sample.externals _ _ Habs)
    as [HN Hst].
  split; [exact HN |].
  destruct (Hst (sample.stored "s2" stack.Failed deployment.Failed
                   drift.Failed) eq_refl eq_refl) as [_ Hrun].
  apply (Hrun sample.brokenStore (sample.query "") sample.org
           {| cloudstore.Stacks :=
                [ sample.stored "s1" stack.OK deployment.OK drift.OK;
                  sample.stored "s2" stack.Failed deployment.Failed
                    drift.Failed;
                  sample.stored "s3" stack.Drifted deployment.OK
                    drift.Drifted ] |}
           [sample.stored "s1" stack.OK deployment.OK drift.OK]
           [sample.stored "s3" stack.Drifted deployment.OK drift.Drifted]).
  - reflexivity.
  - left. reflexivity.
  - reflexivity.
  - repeat constructor.
Defined.

Lemma healthy_unhealthy_partition_witness :
  exists unhealthy healthy : list cloud.StackResponse,
    listedStacks
      (w (snd (serve (@GetStacks sample.externals (sample.query "unhealthy")
                        sample.org) sample_more.testStore)))
    = Some unhealthy
    /\ listedStacks
         (w (snd (serve (@GetStacks sample.externals (sample.query "healthy")
                           sample.org) sample_more.testStore)))
       = Some healthy
    /\ In (StackResponseOf 0 sample_more.driftedS1) unhealthy
    /\ ~ In (StackResponseOf 0 sample_more.driftedS1) healthy
    /\ In (StackResponseOf 1 sample_more.okS2) healthy
    /\ ~ In (StackResponseOf 1 sample_more.okS2) unhealthy.
Proof.
  destruct (@healthy_unhealthy_partition sample.externals
              sample_more.testStore sample.org
              {| cloudstore.Stacks :=
                   [sample_more.driftedS1; sample_more.okS2] |}
              (sample.query "unhealthy") (sample.query "healthy") "" "")
    as (unhealthy & healthy & HU & HH & _ & _ & _ & Hcover & _);
    try reflexivity.
  - repeat constructor.
  - exists unhealthy, healthy.
    rewrite HU, HH.
    split; [reflexivity |]. split; [reflexivity |].
    destruct (Hcover 0 sample_more.driftedS1 eq_refl (or_introl eq_refl)
                (or_introl eq_refl) (or_intror (or_intror eq_refl)))
      as [[H0U H0H] | [H0H _]].
    + destruct (Hcover 1 sample_more.okS2 eq_refl (or_introl eq_refl)
                  (or_introl eq_refl) (or_introl eq_refl))
        as [[H1U _] | [H1H H1U]].
      * exfalso. injection HU as HU. subst unhealthy.
        simpl in H1U. destruct H1U as [H | []]. discriminate H.
      * repeat split; assumption.
    + exfalso. injection HH as HH. subst healthy.
      simpl in H0H. destruct H0H as [H | []]. discriminate H.
Defined.

(** A stack whose pair is in the table but whose stored status is Unknown
    passes [validateStackStatus] and is in neither the "healthy" nor the
    "unhealthy" listing: the partition is of the validly classified
    stacks. *)
Example unknown_status_in_neither_listing :
  let data := sample.storeOf
                [sample.stored "s1" stack.Unknown deployment.OK drift.OK] in
  validateStackStatus
    (sample.stored "s1" stack.Unknown deployment.OK drift.OK) = true
  /\ listedStacks
       (w (snd (serve (@GetStacks sample.externals (sample.query "unhealthy")
                         sample.org) data))) = Some []
  /\ listedStacks
       (w (snd (serve (@GetStacks sample.externals (sample.query "healthy")
                         sample.org) data))) = Some [].
Proof. repeat split. Qed.

(** C4 does not hold of the code: the store holds two stacks with valid
    combinations around one with the combination (drift Failed, deployment
    Failed); the listing answers 500 for that one and lists neither of the
    valid stacks. *)
Lemma listing_aborted_by_one_invalid_stack :
  validateStackStatus (sample.stored "s1" stack.OK deployment.OK drift.OK)
  = true
  /\ validateStackStatus
       (sample.stored "s3" stack.Drifted deployment.OK drift.Drifted) = true
  /\ validateStackStatus
       (sample.stored "s2" stack.Failed deployment.Failed drift.Failed)
     = false
  /\ serve (@GetStacks sample.externals (sample.query "") sample.org)
           sample.brokenStore
     = (Returned,
        {| w := answered http.StatusInternalServerError []
                  [http.WErr
                     (ErrInvalidStackState drift.Failed deployment.Failed
                        stack.Failed)];
           store := sample.brokenStore;
           calls := [CallGetOrg "terramate"] |})
  /\ listedStacks
       (w (snd (serve (@GetStacks sample.externals (sample.query "")
                         sample.org) sample.brokenStore)))
     = None.
Proof. repeat split. Qed.

Lemma invalid_stack_aborts_listing_witness :
  serve (@GetStacks sample.externals (sample.query "healthy") sample.org)
        sample_more.twiceBrokenStore
  = (Returned,
     {| w := answered http.StatusInternalServerError []
               [http.WErr
                  (ErrInvalidStackState drift.Failed deployment.Failed
                     stack.Failed)];
        store := sample_more.twiceBrokenStore;
        calls := [CallGetOrg "terramate"] |})
  /\ listedStacks
       (w (snd (serve (@GetStacks sample.externals (sample.query "healthy")
                         sample.org) sample_more.twiceBrokenStore)))
     = None.
Proof.
  destruct (@invalid_stack_aborts_listing sample.externals
              sample_more.twiceBrokenStore (sample.query "healthy")
              sample.org sample_more.twiceBrokenOrg
              (sample.stored "s3" stack.OK deployment.Unknown drift.OK))
    as (_ & Hnone & H500 & _).
  - reflexivity.
  - simpl. right. right. left. reflexivity.
  - reflexivity.
  - split; [| exact Hnone].
    destruct (H500 (or_intror (or_introl eq_refl)))
      as (pre & bad & post & Hsplit & Hpre & Hbad & Hrun).
    rewrite Hrun. clear Hrun Hnone H500.
    destruct pre as [| a [| b pre]]; simpl in Hsplit.
    + injection Hsplit as <- _. discriminate Hbad.
    + injection Hsplit as _ <- _. reflexivity.
    + injection Hsplit as _ <- _.
      inversion Hpre as [| ? ? _ Hrest]. inversion Hrest as [| ? ? Hb _].
      discriminate Hb.
Defined.

Lemma unrecognized_filter_rejected_witness :
  serve (@GetStacks sample.externals (sample.query "bogus") sample.org)
        sample.healthyStore
  = (Returned,
     {| w := answered http.StatusBadRequest []
               [http.WErr (ErrInvalidStatus "bogus")];
        store := sample.healthyStore;
        calls := [CallGetOrg "terramate"] |}).
Proof.
  apply (@unrecognized_filter_rejected sample.externals sample.healthyStore
           (sample.query "bogus") sample.org
           {| cloudstore.Stacks :=
                [ sample.stored "s1" stack.OK deployment.OK drift.OK;
                  sample.stored "s2" stack.Drifted deployment.OK
                    drift.Drifted;
                  sample.stored "s3" stack.Failed deployment.Failed
                    drift.Unknown ] |}).
  - reflexivity.
  - discriminate.
  - intros [H | [H | H]]; [discriminate H | discriminate H |].
    apply H. reflexivity.
Defined.




(** A tail of two turns over a log of two lines: the first turn writes
    both lines, the second the heartbeat. *)
Example tail_two_turns :
  http.Out
    (w (snd (serve (@GetDeploymentLogsEvents sample.externals
                      [fun d => d; fun d => d] (sample.logsOf "0"))
                   sample.healthyStore)))
  = [ http.WLogLine (sample.logLine 1 "init");
      http.WLogLine (sample.logLine 2 "apply");
      http.WPing ].
Proof. reflexivity. Qed.

Lemma stack_id_out_of_range_not_found_witness :
  serve (@GetDeploymentLogs sample.externals (sample.logsOf "3"))
        sample.healthyStore
  = (Returned,
     {| w := answered http.StatusNotFound [] [http.WErr ErrStackNotFound];
        store := sample.healthyStore;
        calls := [CallGetOrg "terramate"] |})
  /\ serve (@PostDeploymentLogs sample.externals (sample.put "one line")
              (sample.logsOf "-1"))
           sample.healthyStore
     = (Returned,
        {| w := answered http.StatusNotFound [] [http.WErr ErrStackNotFound];
           store := sample.healthyStore;
           calls := [CallGetOrg "terramate"] |}).
Proof.
  split.
  - apply (proj1 (@stack_id_out_of_range_not_found sample.externals)
             sample.healthyStore (sample.put "") (sample.logsOf "3") [] 3
             {| cloudstore.Stacks :=
                  [ sample.stored "s1" stack.OK deployment.OK drift.OK;
                    sample.stored "s2" stack.Drifted deployment.OK
                      drift.Drifted;
                    sample.stored "s3" stack.Failed deployment.Failed
                      drift.Unknown ] |}).
    + reflexivity.
    + reflexivity.
    + right. unfold len. simpl. lia.
  - apply (proj1 (@stack_id_out_of_range_not_found sample.externals)
             sample.healthyStore (sample.put "one line")
             (sample.logsOf "-1") [] (-1)
             {| cloudstore.Stacks :=
                  [ sample.stored "s1" stack.OK deployment.OK drift.OK;
                    sample.stored "s2" stack.Drifted deployment.OK
                      drift.Drifted;
                    sample.stored "s3" stack.Failed deployment.Failed
                      drift.Unknown ] |}).
    + reflexivity.
    + reflexivity.
    + left. lia.
Defined.

(** C10 on the code.  The stack id "abc" does not parse.  The append
    handler answers 400 and returns.  The fetch handler answers 400,
    writes the parse error, then reads the logs of stack 0 and writes them
    after the error; the live tail does the same and streams. *)
Example bad_stackid_is_processed_further :
  serve (@PostDeploymentLogs sample.externals (sample.put "one line")
           (sample.logsOf "abc"))
        sample.healthyStore
  = (Returned,
     {| w := answered http.StatusBadRequest [] [http.WErr (ErrSyntax "abc")];
        store := sample.healthyStore;
        calls := [] |})
  /\ serve (@GetDeploymentLogs sample.externals (sample.logsOf "abc"))
           sample.healthyStore
     = (Next tt,
        {| w := answered http.StatusBadRequest []
                  [ http.WErr (ErrSyntax "abc");
                    http.WLogs [ sample.logLine 1 "init";
                                 sample.logLine 2 "apply" ] ];
           store := sample.healthyStore;
           calls := [ CallGetOrg "terramate";
                      CallGetDeploymentLogs "terramate" "s1" "deploy-1" 0 ] |})
  /\ serve (@GetDeploymentLogsEvents sample.externals [fun d => d]
              (sample.logsOf "abc"))
           sample.healthyStore
     = (Next 2,
        {| w := answered http.StatusBadRequest
                  [("Cache-Control", "no-cache"); ("Connection", "keep-alive");
                   ("Content-Type", "text/event-stream")]
                  [ http.WErr (ErrSyntax "abc");
                    http.WLogLine (sample.logLine 1 "init");
                    http.WLogLine (sample.logLine 2 "apply") ];
           store := sample.healthyStore;
           calls := [ CallGetOrg "terramate";
                      CallGetDeploymentLogs "terramate" "s1" "deploy-1" 0 ] |}).
Proof. repeat split. Qed.

(** ** The listing command *)

(** C8.  A listing with a status filter, run in a repository whose remote
    identity cannot be resolved, exits with status 1, prints a message on
    standard error and lists no stack; it is what the first case of
    [TestCloudListUnhealthy] expects. *)
Theorem local_repository_rejected :
  forall (remote : cli.Remote) (statusFlag : string)
         (locals : list cli.LocalStack)
         (query : string -> string -> Result (list string)),
    cli.remoteIdentity remote = None ->
    statusFlag <> "" ->
    cli.Status (cli.listStacks remote statusFlag locals query) = 1
    /\ cli.Status (cli.listStacks remote statusFlag locals query) <> 0
    /\ cli.Stdout (cli.listStacks remote statusFlag locals query) = []
    /\ cli.Stderr (cli.listStacks remote statusFlag locals query) <> ""
    /\ cli.AssertRunResult (cli.listStacks remote statusFlag locals query)
                           cli.wantLocalRepository = true.
Proof.
  intros remote statusFlag locals query Hnone Hflag.
  unfold cli.listStacks. apply String.eqb_neq in Hflag.
  rewrite Hflag, Hnone. simpl.
  repeat split; discriminate.
Qed.

Lemma local_repository_rejected_witness :
  cli.listStacks (cli.Filesystem "/tmp/TestCloudListUnhealthy/001")
    "unhealthy"
    [ {| cli.Dir := "s1"; cli.MetaID := Some "s1" |} ]
    (fun _ _ => Ok ["s1"])
  = {| cli.Status := 1;
       cli.Stdout := [];
       cli.Stderr :=
         "unhealthy status filter does not work with filesystem based remotes" |}
  /\ cli.Stdout
       (cli.listStacks (cli.Filesystem "/tmp/TestCloudListUnhealthy/001")
          "unhealthy"
          [ {| cli.Dir := "s1"; cli.MetaID := Some "s1" |} ]
          (fun _ _ => Ok ["s1"]))
     = [].
Proof.
  split; [reflexivity |].
  apply (local_repository_rejected
           (cli.Filesystem "/tmp/TestCloudListUnhealthy/001") "unhealthy"
           [ {| cli.Dir := "s1"; cli.MetaID := Some "s1" |} ]
           (fun _ _ => Ok ["s1"])).
  - reflexivity.
  - discriminate.
Defined.

(** * Further properties of the handlers *)

Section MoreHandlerFacts.
Context {ext : Externals}.

(** ** Unknown organization *)

(** X1.  A request that names an organization the store does not have is
    answered 404 "organization not found" by each of the four handlers
    that look the organization up: by GetStacks and by the live tail
    whatever else the request holds, by the log fetch and the log append
    when the stack id parses.  The store is not changed and nothing else
    of it is read. *)
Theorem unknown_organization_not_found :
  forall (data : cloudstore.Data) (r : http.Request) (p : httprouter.Params)
         (sleeps : list (cloudstore.Data -> cloudstore.Data)),
    store_model.GetOrg data (httprouter.ByName p "orguuid") = None ->
    serve (GetStacks r p) data
    = (Returned,
       {| w := answered http.StatusNotFound []
                 [http.WString "organization not found"];
          store := data;
          calls := [CallGetOrg (httprouter.ByName p "orguuid")] |})
    /\ serve (GetDeploymentLogsEvents sleeps p) data
       = (Returned,
          {| w := answered http.StatusNotFound
                    [("Cache-Control", "no-cache");
                     ("Connection", "keep-alive");
                     ("Content-Type", "text/event-stream")]
                    [http.WString "organization not found"];
             store := data;
             calls := [CallGetOrg (httprouter.ByName p "orguuid")] |})
    /\ forall n : Z,
         Atoi (httprouter.ByName p "stackid") = (n, None) ->
         serve (GetDeploymentLogs p) data
         = (Returned,
            {| w := answered http.StatusNotFound []
                      [http.WString "organization not found"];
               store := data;
               calls := [CallGetOrg (httprouter.ByName p "orguuid")] |})
         /\ serve (PostDeploymentLogs r p) data
            = (Returned,
               {| w := answered http.StatusNotFound []
                         [http.WString "organization not found"];
                  store := data;
                  calls := [CallGetOrg (httprouter.ByName p "orguuid")] |}).
Proof.
  intros data r p sleeps Horg. split; [| split].
  - unfold GetStacks. run_handler. rewrite Horg. reflexivity.
  - unfold GetDeploymentLogsEvents. run_handler. rewrite Horg. reflexivity.
  - intros n HA. pose proof (Atoi_parsed_nonempty _ _ HA) as Hne. split.
    + unfold GetDeploymentLogs. rewrite Hne, HA. run_handler.
      rewrite Horg. reflexivity.
    + unfold PostDeploymentLogs. rewrite Hne, HA. run_handler.
      rewrite Horg. reflexivity.
Qed.

(** ** What a listing holds *)

Lemma listing_increasing (keep : cloudstore.Stack -> bool)
  (stacks : list cloudstore.Stack) :
  forall id,
    StronglySorted (fun a b => cloud.ID a < cloud.ID b)
                   (listing keep id stacks).
Proof.
  induction stacks as [| st rest IH]; intro id; simpl.
  - constructor.
  - destruct (keep st); simpl.
    + constructor; [apply IH |].
      apply Forall_forall. intros x Hx.
      apply listing_ID_ge in Hx. simpl. lia.
    + apply IH.
Qed.

(** X3.  When a listing succeeds, it holds exactly the stored stacks that
    pass every filter of the request: the status mask if a status was
    given, the repository if one was given, the meta id if one was given.
    Each stack appears under the ID that is its index in the
    organization's slice of stacks, with its fields copied. *)
Theorem listing_holds_the_stacks_that_pass :
  forall (data : cloudstore.Data) (r : http.Request) (p : httprouter.Params)
         (org : cloudstore.Org),
    store_model.GetOrg data (httprouter.ByName p "orguuid") = Some org ->
    tokenAccepted (http.FormValue r "status") ->
    Forall (fun st => validateStackStatus st = true)
           (cloudstore.Stacks org) ->
    exists resp : list cloud.StackResponse,
      fst (serve (GetStacks r p) data) = Next tt
      /\ listedStacks (w (snd (serve (GetStacks r p) data))) = Some resp
      /\ forall x : cloud.StackResponse,
           In x resp
           <-> exists st : cloudstore.Stack,
                 at_index (cloudstore.Stacks org) (cloud.ID x) = Some st
                 /\ x = StackResponseOf (cloud.ID x) st
                 /\ (parsedFilter (http.FormValue r "status") = stack.NoFilter
                     \/ Z.land
                          (stack.FilterStatus
                             (cloudstore.Status (cloudstore.State st)))
                          (parsedFilter (http.FormValue r "status")) <> 0)
                 /\ (http.FormValue r "repository" = ""
                     \/ cloud.Repository (cloudstore.Stack_ st)
                        = http.FormValue r "repository")
                 /\ (http.FormValue r "meta_id" = ""
                     \/ cloud.MetaID (cloudstore.Stack_ st)
                        = http.FormValue r "meta_id").
Proof.
  intros data r p org Horg Hacc Hall.
  exists (listing (keeps r) 0 (cloudstore.Stacks org)).
  rewrite (GetStacks_lists data r p org Horg Hacc Hall).
  split; [reflexivity |]. split; [reflexivity |].
  intro x. rewrite In_listing, Z.sub_0_r.
  assert (Hk : forall st,
             keeps r st = true
             <-> (parsedFilter (http.FormValue r "status") = stack.NoFilter
                  \/ Z.land
                       (stack.FilterStatus
                          (cloudstore.Status (cloudstore.State st)))
                       (parsedFilter (http.FormValue r "status")) <> 0)
                 /\ (http.FormValue r "repository" = ""
                     \/ cloud.Repository (cloudstore.Stack_ st)
                        = http.FormValue r "repository")
                 /\ (http.FormValue r "meta_id" = ""
                     \/ cloud.MetaID (cloudstore.Stack_ st)
                        = http.FormValue r "meta_id")).
  { intro st. unfold keeps. rewrite forallb_andFilters.
    unfold statusKeep, otherKeep.
    rewrite !andb_true_iff, !orb_true_iff, negb_true_iff.
    rewrite Z.eqb_eq, Z.eqb_neq, !String.eqb_eq. reflexivity. }
  split.
  - intros (st & Hat & Hx & Hkeep). exists st.
    apply Hk in Hkeep. tauto.
  - intros (st & Hat & Hx & Hconds). exists st.
    split; [exact Hat |]. split; [exact Hx |]. apply Hk. exact Hconds.
Qed.

(** X4.  The stacks of a successful listing come in strictly increasing
    ID order: the order of the store, which the final sort by ID leaves as
    it is.  In particular no ID appears twice. *)
Theorem listing_in_increasing_id_order :
  forall (data : cloudstore.Data) (r : http.Request) (p : httprouter.Params)
         (org : cloudstore.Org),
    store_model.GetOrg data (httprouter.ByName p "orguuid") = Some org ->
    tokenAccepted (http.FormValue r "status") ->
    Forall (fun st => validateStackStatus st = true)
           (cloudstore.Stacks org) ->
    exists resp : list cloud.StackResponse,
      listedStacks (w (snd (serve (GetStacks r p) data))) = Some resp
      /\ StronglySorted (fun a b => cloud.ID a < cloud.ID b) resp
      /\ NoDup (map cloud.ID resp)
      /\ sortSlice resp = resp.
Proof.
  intros data r p org Horg Hacc Hall.
  exists (listing (keeps r) 0 (cloudstore.Stacks org)).
  rewrite (GetStacks_lists data r p org Horg Hacc Hall).
  split; [reflexivity |].
  pose proof (listing_increasing (keeps r) (cloudstore.Stacks org) 0) as HS.
  split; [exact HS |]. split; [| apply sortSlice_listing].
  induction HS as [| x l HS IH Hx]; simpl; constructor.
  - intro Hin. apply in_map_iff in Hin. destruct Hin as (y & Heq & Hy).
    rewrite Forall_forall in Hx. apply Hx in Hy. lia.
  - exact IH.
Qed.

Lemma at_index_nil {A} (i : Z) : at_index (@nil A) i = None.
Proof.
  unfold at_index. destruct (i <? 0); [reflexivity |].
  destruct (Z.to_nat i); reflexivity.
Qed.

Lemma at_index_zero {A} (x : A) (l : list A) : at_index (x :: l) 0 = Some x.
Proof. reflexivity. Qed.

Lemma at_index_listing_all (stacks : list cloudstore.Stack) :
  forall id i,
    0 <= i ->
    at_index (listing (fun _ => true) id stacks) i
    = match at_index stacks i with
      | Some st => Some (StackResponseOf (id + i) st)
      | None => None
      end.
Proof.
  induction stacks as [| st rest IH]; intros id i Hi; simpl.
  - rewrite !at_index_nil. reflexivity.
  - destruct (Z.eq_dec i 0) as [-> | Hne].
    + rewrite !at_index_zero, Z.add_0_r. reflexivity.
    + replace i with (i - 1 + 1) at 1 2 by lia.
      rewrite !at_index_succ by lia. rewrite IH by lia.
      destruct (at_index rest (i - 1)); [| reflexivity].
      f_equal. f_equal. lia.
Qed.

Lemma listing_all_length (stacks : list cloudstore.Stack) :
  forall id, List.length (listing (fun _ => true) id stacks)
             = List.length stacks.
Proof.
  induction stacks as [| st rest IH]; intro id; simpl;
    [reflexivity | rewrite IH; reflexivity].
Qed.

(** X5.  A listing without any filter (no status, no repository, no meta
    id) of an organization whose stacks all have a valid combination
    answers every stack of the organization: as many entries as stacks,
    the i-th being the i-th stack under the ID i. *)
Theorem unfiltered_listing_is_complete :
  forall (data : cloudstore.Data) (r : http.Request) (p : httprouter.Params)
         (org : cloudstore.Org),
    store_model.GetOrg data (httprouter.ByName p "orguuid") = Some org ->
    http.FormValue r "status" = "" ->
    http.FormValue r "repository" = "" ->
    http.FormValue r "meta_id" = "" ->
    Forall (fun st => validateStackStatus st = true)
           (cloudstore.Stacks org) ->
    exists resp : list cloud.StackResponse,
      listedStacks (w (snd (serve (GetStacks r p) data))) = Some resp
      /\ List.length resp = List.length (cloudstore.Stacks org)
      /\ forall (i : Z) (st : cloudstore.Stack),
           at_index (cloudstore.Stacks org) i = Some st ->
           at_index resp i = Some (StackResponseOf i st).
Proof.
  intros data r p org Horg Hs Hr Hm Hall.
  exists (listing (fun _ => true) 0 (cloudstore.Stacks org)).
  rewrite (GetStacks_lists data r p org Horg (or_introl Hs) Hall).
  assert (E : listing (keeps r) 0 (cloudstore.Stacks org)
              = listing (fun _ => true) 0 (cloudstore.Stacks org)).
  { apply listing_ext. intro st. unfold keeps, parsedFilter.
    rewrite Hs, Hr, Hm. reflexivity. }
  unfold listedStacks. simpl. rewrite E.
  split; [reflexivity |]. split; [apply listing_all_length |].
  intros i st Hat.
  assert (0 <= i).
  { unfold at_index in Hat. destruct (i <? 0) eqn:Ei; [discriminate |].
    apply Z.ltb_ge in Ei. exact Ei. }
  rewrite at_index_listing_all by assumption. rewrite Hat. reflexivity.
Qed.



(** ** PutStack's failures *)

(** X7.  PutStack answers 500 with an empty body when the request body
    cannot be read, and 400 with the decoder's error when it cannot be
    decoded.  In both cases it returns before it touches the store. *)
Theorem PutStack_rejects_bad_body :
  forall (data : cloudstore.Data) (r : http.Request) (p : httprouter.Params),
    (http.Body r = None ->
     serve (PutStack r p) data
     = (Returned,
        {| w := answered http.StatusInternalServerError [] [];
           store := data;
           calls := [] |}))
    /\ (forall bodyData : string,
          http.Body r = Some bodyData ->
          unmarshalStackResponse bodyData = None ->
          serve (PutStack r p) data
          = (Returned,
             {| w := answered http.StatusBadRequest []
                       [http.WErr ErrUnmarshal];
                store := data;
                calls := [] |})).
Proof.
  intros data r p. split.
  - intro Hb. unfold PutStack. rewrite Hb. reflexivity.
  - intros bodyData Hb Hd. unfold PutStack. rewrite Hb, Hd. reflexivity.
Qed.

(** ** The log handlers on a stack that exists *)

Lemma at_index_Some_in_range {A} (l : list A) (n : Z) (x : A) :
  at_index l n = Some x -> (n <? 0) || (len l <=? n) = false.
Proof.
  unfold at_index, len. intro H.
  destruct (n <? 0) eqn:E0; [discriminate |]. simpl.
  apply Z.ltb_ge in E0. apply Z.leb_gt.
  assert (Hlt : (Z.to_nat n < List.length l)%nat).
  { apply nth_error_Some. rewrite H. discriminate. }
  lia.
Qed.

(** X8.  An append for a stack that exists stores the decoded lines under
    the organization, the deployment and the meta id of the stack at the
    given index, and answers 204; the store is then what the insert made
    of it.  When the insert fails the answer is 500 with its error and the
    store is as before. *)
Theorem PostDeploymentLogs_appends_for_indexed_stack :
  forall (data : cloudstore.Data) (r : http.Request) (p : httprouter.Params)
         (n : Z) (org : cloudstore.Org) (st : cloudstore.Stack)
         (bodyData : string) (logs : cloud.DeploymentLogs),
    Atoi (httprouter.ByName p "stackid") = (n, None) ->
    store_model.GetOrg data (httprouter.ByName p "orguuid") = Some org ->
    at_index (cloudstore.Stacks org) n = Some st ->
    http.Body r = Some bodyData ->
    unmarshalDeploymentLogs bodyData = Some logs ->
    match data_InsertDeploymentLogs data (httprouter.ByName p "orguuid")
            (cloud.MetaID (cloudstore.Stack_ st))
            (httprouter.ByName p "deployment_uuid") logs with
    | Ok data' =>
        serve (PostDeploymentLogs r p) data
        = (Next tt,
           {| w := {| http.Code := Some http.StatusNoContent;
                      http.Header := []; http.Out := [] |};
              store := data';
              calls :=
                [ CallGetOrg (httprouter.ByName p "orguuid");
                  CallInsertDeploymentLogs (httprouter.ByName p "orguuid")
                    (cloud.MetaID (cloudstore.Stack_ st))
                    (httprouter.ByName p "deployment_uuid") logs ] |})
    | Err e =>
        serve (PostDeploymentLogs r p) data
        = (Returned,
           {| w := answered http.StatusInternalServerError [] [http.WErr e];
              store := data;
              calls :=
                [ CallGetOrg (httprouter.ByName p "orguuid");
                  CallInsertDeploymentLogs (httprouter.ByName p "orguuid")
                    (cloud.MetaID (cloudstore.Stack_ st))
                    (httprouter.ByName p "deployment_uuid") logs ] |})
    end.
Proof.
  intros data r p n org st bodyData logs HA Horg Hst Hb Hd.
  pose proof (Atoi_parsed_nonempty _ _ HA) as Hne.
  pose proof (at_index_Some_in_range _ _ _ Hst) as Hr.
  unfold PostDeploymentLogs. rewrite Hne, HA. run_handler.
  rewrite Horg, Hr, Hst. simpl. rewrite Hb, Hd.
  destruct (data_InsertDeploymentLogs _ _ _ _ _) as [data' | e];
    reflexivity.
Qed.

(** X9.  An append whose body cannot be read is answered 500, one whose
    body cannot be decoded 400, both with an empty response body; the
    insert is not called and the store is as before. *)
Theorem PostDeploymentLogs_rejects_bad_body :
  forall (data : cloudstore.Data) (r : http.Request) (p : httprouter.Params)
         (n : Z) (org : cloudstore.Org) (st : cloudstore.Stack),
    Atoi (httprouter.ByName p "stackid") = (n, None) ->
    store_model.GetOrg data (httprouter.ByName p "orguuid") = Some org ->
    at_index (cloudstore.Stacks org) n = Some st ->
    (http.Body r = None ->
     serve (PostDeploymentLogs r p) data
     = (Returned,
        {| w := answered http.StatusInternalServerError [] [];
           store := data;
           calls := [CallGetOrg (httprouter.ByName p "orguuid")] |}))
    /\ (forall bodyData : string,
          http.Body r = Some bodyData ->
          unmarshalDeploymentLogs bodyData = None ->
          serve (PostDeploymentLogs r p) data
          = (Returned,
             {| w := answered http.StatusBadRequest [] [];
                store := data;
                calls := [CallGetOrg (httprouter.ByName p "orguuid")] |})).
Proof.
  intros data r p n org st HA Horg Hst.
  pose proof (Atoi_parsed_nonempty _ _ HA) as Hne.
  pose proof (at_index_Some_in_range _ _ _ Hst) as Hr.
  split.
  - intro Hb. unfold PostDeploymentLogs. rewrite Hne, HA. run_handler.
    rewrite Horg, Hr, Hst. simpl. rewrite Hb. reflexivity.
  - intros bodyData Hb Hd. unfold PostDeploymentLogs.
    rewrite Hne, HA. run_handler.
    rewrite Horg, Hr, Hst. simpl. rewrite Hb, Hd. reflexivity.
Qed.

(** X10.  A fetch for a stack that exists asks the store for the logs of
    the deployment from line 0 on, under the meta id of the stack at the
    given index.  It answers 200 with those logs; 500 with the store's
    error when the store fails; 500 with an empty body when the logs
    cannot be encoded. *)
Theorem GetDeploymentLogs_fetches_from_line_zero :
  forall (data : cloudstore.Data) (p : httprouter.Params)
         (n : Z) (org : cloudstore.Org) (st : cloudstore.Stack),
    Atoi (httprouter.ByName p "stackid") = (n, None) ->
    store_model.GetOrg data (httprouter.ByName p "orguuid") = Some org ->
    at_index (cloudstore.Stacks org) n = Some st ->
    calls (snd (serve (GetDeploymentLogs p) data))
    = [ CallGetOrg (httprouter.ByName p "orguuid");
        CallGetDeploymentLogs (httprouter.ByName p "orguuid")
          (cloud.MetaID (cloudstore.Stack_ st))
          (httprouter.ByName p "deployment_uuid") 0 ]
    /\ match data_GetDeploymentLogs data (httprouter.ByName p "orguuid")
               (cloud.MetaID (cloudstore.Stack_ st))
               (httprouter.ByName p "deployment_uuid") 0 with
       | Ok logs =>
           if marshalIndentFails logs then
             fst (serve (GetDeploymentLogs p) data) = Returned
             /\ w (snd (serve (GetDeploymentLogs p) data))
                = answered http.StatusInternalServerError [] []
           else
             fst (serve (GetDeploymentLogs p) data) = Next tt
             /\ w (snd (serve (GetDeploymentLogs p) data))
                = answered http.StatusOK [] [http.WLogs logs]
       | Err e =>
           fst (serve (GetDeploymentLogs p) data) = Returned
           /\ w (snd (serve (GetDeploymentLogs p) data))
              = answered http.StatusInternalServerError [] [http.WErr e]
       end.
Proof.
  intros data p n org st HA Horg Hst.
  pose proof (Atoi_parsed_nonempty _ _ HA) as Hne.
  pose proof (at_index_Some_in_range _ _ _ Hst) as Hr.
  unfold GetDeploymentLogs. rewrite Hne, HA. run_handler.
  rewrite Horg, Hr, Hst. simpl.
  destruct (data_GetDeploymentLogs _ _ _ _ _) as [logs | e]; simpl.
  - destruct (marshalIndentFails logs); simpl; repeat split.
  - repeat split.
Qed.

(** X11.  A request without a stack id is answered 400 with an empty
    body.  The fetch and the append answer so before they read the store;
    the live tail looks the organization up first, and answers 400 only
    when the organization exists. *)
Theorem missing_stackid_is_bad_request :
  forall (data : cloudstore.Data) (r : http.Request) (p : httprouter.Params)
         (sleeps : list (cloudstore.Data -> cloudstore.Data)),
    httprouter.ByName p "stackid" = "" ->
    serve (GetDeploymentLogs p) data
    = (Returned,
       {| w := answered http.StatusBadRequest [] [];
          store := data; calls := [] |})
    /\ serve (PostDeploymentLogs r p) data
       = (Returned,
          {| w := answered http.StatusBadRequest [] [];
             store := data; calls := [] |})
    /\ forall org : cloudstore.Org,
         store_model.GetOrg data (httprouter.ByName p "orguuid") = Some org ->
         serve (GetDeploymentLogsEvents sleeps p) data
         = (Returned,
            {| w := answered http.StatusBadRequest
                      [("Cache-Control", "no-cache");
                       ("Connection", "keep-alive");
                       ("Content-Type", "text/event-stream")] [];
               store := data;
               calls := [CallGetOrg (httprouter.ByName p "orguuid")] |}).
Proof.
  intros data r p sleeps Hs. split; [| split].
  - unfold GetDeploymentLogs. rewrite Hs. reflexivity.
  - unfold PostDeploymentLogs. rewrite Hs. reflexivity.
  - intros org Horg. unfold GetDeploymentLogsEvents. run_handler.
    rewrite Horg, Hs. reflexivity.
Qed.

(** ** The live tail as a stream *)

Lemma wrote_Header (xs : list http.Written) (rw : http.ResponseWriter) :
  http.Header (wrote xs rw) = http.Header rw.
Proof. reflexivity. Qed.

Lemma tailLoop_Header
  (sleeps : list (cloudstore.Data -> cloudstore.Data)) (orguuid : UUID)
  (metaID : string) (deploymentUUID : UUID) :
  forall line s,
    http.Header
      (w (snd (tailLoop sleeps orguuid metaID deploymentUUID line s)))
    = http.Header (w s).
Proof.
  induction sleeps as [| during rest IH]; intros line s; simpl.
  - reflexivity.
  - unfold bind. rewrite tailStep_run.
    destruct (data_GetDeploymentLogs _ _ _ _ _) as [logs | e]; simpl.
    + unfold getStore, putStore. simpl. rewrite IH. reflexivity.
    + reflexivity.
Qed.

(** X12.  Whatever the request and however the live tail ends (404, 400,
    a stream, an error in the stream), its response carries the three
    event-stream headers, each once: they are set before anything else is
    done. *)
Theorem live_tail_always_sets_stream_headers :
  forall (sleeps : list (cloudstore.Data -> cloudstore.Data))
         (data : cloudstore.Data) (p : httprouter.Params),
    http.Header (w (snd (serve (GetDeploymentLogsEvents sleeps p) data)))
    = [ ("Cache-Control", "no-cache");
        ("Connection", "keep-alive");
        ("Content-Type", "text/event-stream") ].
Proof.
  intros sleeps data p.
  unfold GetDeploymentLogsEvents. run_handler.
  destruct (store_model.GetOrg data (httprouter.ByName p "orguuid"))
    as [org |]; simpl; [| reflexivity].
  destruct (String.eqb (httprouter.ByName p "stackid") "");
    simpl; [reflexivity |].
  destruct (Atoi (httprouter.ByName p "stackid")) as [n [e |]]; simpl;
    (destruct ((n <? 0) || (len (cloudstore.Stacks org) <=? n)) eqn:Hr;
       simpl; [reflexivity |]);
    destruct (at_index_in_range _ _ Hr) as [st Hst]; rewrite Hst;
    rewrite tailLoop_Header; reflexivity.
Qed.

Lemma logLinesOf_app (xs ys : list http.Written) :
  logLinesOf (xs ++ ys) = logLinesOf xs ++ logLinesOf ys.
Proof. unfold logLinesOf. apply flat_map_app. Qed.

Lemma logLinesOf_turnEvents (logs : cloud.DeploymentLogs) :
  logLinesOf (turnEvents (Ok logs)) = logs.
Proof.
  destruct logs as [| l rest]; [reflexivity |].
  unfold turnEvents. induction (l :: rest) as [| x xs IH];
    [reflexivity | simpl; rewrite IH; reflexivity].
Qed.

(** X13.  While the live tail runs, the line number it polls from next is
    the line it started from plus the number of log lines it has written
    since: it never asks again for a line it has written. *)
Theorem live_tail_counts_lines_written :
  forall (sleeps : list (cloudstore.Data -> cloudstore.Data))
         (orguuid : UUID) (metaID : string) (deploymentUUID : UUID)
         (line line' : Z) (s : World),
    fst (tailLoop sleeps orguuid metaID deploymentUUID line s) = Next line' ->
    exists lines : cloud.DeploymentLogs,
      logLinesOf
        (http.Out
           (w (snd (tailLoop sleeps orguuid metaID deploymentUUID line s))))
      = logLinesOf (http.Out (w s)) ++ lines
      /\ line' = line + len lines.
Proof.
  induction sleeps as [| during rest IH];
    intros orguuid metaID deploymentUUID line line' s Hrun.
  - simpl in *. injection Hrun as <-. exists [].
    rewrite app_nil_r. split; [reflexivity | unfold len; simpl; lia].
  - simpl in *. unfold bind in *. rewrite tailStep_run in *.
    destruct (data_GetDeploymentLogs (store s) orguuid metaID
                deploymentUUID line) as [logs | e] eqn:Eres;
      [| discriminate Hrun].
    unfold getStore, putStore in *. cbn [fst snd] in *.
    destruct (IH _ _ _ _ _ _ Hrun) as (more & Hout & Hline).
    exists (logs ++ more). split.
    + rewrite Hout. cbn [w]. unfold wrote. cbn [http.Out].
      rewrite logLinesOf_app, logLinesOf_turnEvents, app_assoc.
      reflexivity.
    + rewrite Hline. unfold len. rewrite length_app, Nat2Z.inj_add. lia.
Qed.

Lemma tailLoop_pings
  (sleeps : list (cloudstore.Data -> cloudstore.Data)) (orguuid : UUID)
  (metaID : string) (deploymentUUID : UUID) (line : Z) :
  Forall (fun during => forall d, during d = d) sleeps ->
  forall s,
    data_GetDeploymentLogs (store s) orguuid metaID deploymentUUID line
    = Ok [] ->
    fst (tailLoop sleeps orguuid metaID deploymentUUID line s) = Next line
    /\ http.Out
         (w (snd (tailLoop sleeps orguuid metaID deploymentUUID line s)))
       = http.Out (w s) ++ repeat http.WPing (List.length sleeps)
    /\ store (snd (tailLoop sleeps orguuid metaID deploymentUUID line s))
       = store s.
Proof.
  induction 1 as [| during rest Hid _ IH]; intros s Hpoll; simpl.
  - rewrite app_nil_r. repeat split.
  - unfold bind. rewrite tailStep_run. rewrite Hpoll.
    unfold getStore, putStore. cbn [fst snd w store calls].
    change (len (@nil cloud.DeploymentLog)) with 0. rewrite !Z.add_0_r.
    match goal with
    | |- context [tailLoop rest _ _ _ _ ?s1] =>
        destruct (IH s1) as (H1 & H2 & H3)
    end.
    { cbn [store]. rewrite Hid. exact Hpoll. }
    rewrite H1, H2, H3. cbn [w store http.Out wrote turnEvents].
    rewrite Hid, <- app_assoc. repeat split.
Qed.

(** X14.  With a store that nothing changes meanwhile and that answers a
    poll from a line with the stored lines from that line on, a live tail
    started at line 0 writes every stored line once, in order, in its
    first turn, and a heartbeat in every later turn (in every turn, when
    there is no line). *)
Theorem live_tail_of_a_static_log :
  forall (sleeps : list (cloudstore.Data -> cloudstore.Data))
         (orguuid : UUID) (metaID : string) (deploymentUUID : UUID)
         (stored : cloud.DeploymentLogs) (s : World),
    Forall (fun during => forall d, during d = d) sleeps ->
    (forall line : Z,
       0 <= line ->
       data_GetDeploymentLogs (store s) orguuid metaID deploymentUUID line
       = Ok (skipn (Z.to_nat line) stored)) ->
    sleeps <> [] ->
    fst (tailLoop sleeps orguuid metaID deploymentUUID 0 s)
    = Next (len stored)
    /\ http.Out (w (snd (tailLoop sleeps orguuid metaID deploymentUUID 0 s)))
       = http.Out (w s)
         ++ map http.WLogLine stored
         ++ repeat http.WPing
              (match stored with
               | [] => List.length sleeps
               | _ :: _ => List.length sleeps - 1
               end).
Proof.
  intros sleeps orguuid metaID deploymentUUID stored s Hid Hstore Hne.
  destruct sleeps as [| during rest]; [congruence |].
  assert (Hend : data_GetDeploymentLogs (store s) orguuid metaID
                   deploymentUUID (len stored) = Ok []).
  { rewrite Hstore by (unfold len; lia). unfold len.
    rewrite Nat2Z.id, skipn_all. reflexivity. }
  destruct stored as [| l more].
  - apply (tailLoop_pings (during :: rest) orguuid metaID deploymentUUID 0
             Hid s) in Hend.
    destruct Hend as (H1 & H2 & _). split; [exact H1 | exact H2].
  - inversion Hid as [| ? ? Hd Hrest]; subst.
    simpl tailLoop. unfold bind. rewrite tailStep_run.
    rewrite (Hstore 0) by lia. simpl skipn.
    unfold getStore, putStore. cbn [fst snd w store calls].
    rewrite Z.add_0_l.
    match goal with
    | |- context [tailLoop rest _ _ _ _ ?s1] =>
        destruct (tailLoop_pings rest orguuid metaID deploymentUUID
                    (len (l :: more)) Hrest s1) as (H1 & H2 & _)
    end.
    { cbn [store]. rewrite Hd. exact Hend. }
    rewrite H1, H2. cbn [w http.Out wrote turnEvents].
    split; [reflexivity |].
    rewrite <- app_assoc.
    replace (List.length (during :: rest) - 1)%nat with (List.length rest)
      by (simpl; lia).
    reflexivity.
Qed.


End MoreHandlerFacts.

(** ** The state table, read by status *)

(** X16.  The table read backwards.  A stack is classified Drifted only
    when it drifted and its deployment succeeded; Failed only when its
    deployment failed or was canceled and its drift is Drifted or Unknown;
    OK in every other combination the table has.  No combination is
    classified Unknown or Unrecognized. *)
Theorem state_table_by_status :
  forall (d : drift.Status) (p : deployment.Status),
    (Classify d p = Some stack.Drifted
     <-> d = drift.Drifted /\ p = deployment.OK)
    /\ (Classify d p = Some stack.Failed
        <-> (d = drift.Unknown \/ d = drift.Drifted)
            /\ (p = deployment.Failed \/ p = deployment.Canceled))
    /\ (Classify d p = Some stack.OK
        <-> (d <> drift.Drifted /\ p = deployment.OK)
            \/ (d = drift.OK
                /\ (p = deployment.Failed \/ p = deployment.Canceled))
            \/ (d = drift.Failed
                /\ (p = deployment.Pending \/ p = deployment.Running)))
    /\ Classify d p <> Some stack.Unknown
    /\ Classify d p <> Some stack.Unrecognized.
Proof.
  intros d p.
  destruct d, p; cbn;
    (split; [| split; [| split; [| split]]]);
    try discriminate;
    (split; [intro H; try discriminate H | intro H]);
    first [ reflexivity
          | solve [intuition congruence]
          | solve [intuition discriminate] ].
Qed.

(** ** GetStackDrifts *)

Section DriftFacts.
Variables D M : Type.

Lemma insertByIDDesc_perm (r : cloud_drifts.Drift D M)
  (l : list (cloud_drifts.Drift D M)) :
  Permutation (drifts.insertByIDDesc r l) (r :: l).
Proof.
  induction l as [| x rest IH]; simpl.
  - apply Permutation_refl.
  - destruct (cloud_drifts.ID x <? cloud_drifts.ID r).
    + apply Permutation_refl.
    + eapply perm_trans; [apply perm_skip; exact IH | apply perm_swap].
Qed.

Lemma sortMostRecentFirst_perm (l : list (cloud_drifts.Drift D M)) :
  Permutation (drifts.sortMostRecentFirst l) l.
Proof.
  induction l as [| x rest IH]; simpl.
  - apply Permutation_refl.
  - eapply perm_trans; [apply insertByIDDesc_perm |].
    apply perm_skip. exact IH.
Qed.

Definition newerOrSame (a b : cloud_drifts.Drift D M) : Prop :=
  cloud_drifts.ID b <= cloud_drifts.ID a.

Lemma insertByIDDesc_sorted (r : cloud_drifts.Drift D M)
  (l : list (cloud_drifts.Drift D M)) :
  StronglySorted newerOrSame l ->
  StronglySorted newerOrSame (drifts.insertByIDDesc r l).
Proof.
  induction 1 as [| x rest Hs IH Hx]; simpl.
  - repeat constructor.
  - destruct (cloud_drifts.ID x <? cloud_drifts.ID r) eqn:E.
    + apply Z.ltb_lt in E. constructor.
      * constructor; assumption.
      * constructor; [unfold newerOrSame; lia |].
        eapply Forall_impl; [| exact Hx].
        unfold newerOrSame. intros y Hy. lia.
    + apply Z.ltb_ge in E. constructor; [exact IH |].
      eapply Permutation_Forall;
        [apply Permutation_sym; apply insertByIDDesc_perm |].
      constructor; [exact E | exact Hx].
Qed.

Lemma sortMostRecentFirst_sorted (l : list (cloud_drifts.Drift D M)) :
  StronglySorted newerOrSame (drifts.sortMostRecentFirst l).
Proof.
  induction l as [| x rest IH]; simpl.
  - constructor.
  - apply insertByIDDesc_sorted. exact IH.
Qed.

(** X17.  GetStackDrifts answers 400 with the wrapped error "invalid
    stackid" when the stack id does not parse, the empty stack id
    included, and does not ask the store for anything: the answer is the
    same whatever the store would say. *)
Theorem GetStackDrifts_rejects_bad_stackid :
  forall (getStackDrifts :
            UUID -> Z -> Result (list (cloudstore_drifts.Drift D M)))
         (params : httprouter.Params) (n : Z) (e : error),
    Atoi (httprouter.ByName params "stackid") = (n, Some e) ->
    drifts.GetStackDrifts getStackDrifts params
    = {| drifts.Code := Some http.StatusBadRequest;
         drifts.Header := [];
         drifts.Out := [drifts.WErr (drifts.InvalidStackid e)] |}.
Proof.
  intros getStackDrifts params n e HA.
  unfold drifts.GetStackDrifts. rewrite HA. reflexivity.
Qed.

(** X18.  For a stack id that parses, GetStackDrifts answers what the
    store holds for that organization and stack id: 200, as JSON, every
    stored drift exactly once with its four fields copied, in decreasing
    ID order (most recent first); or 500 with the store's error. *)
Theorem GetStackDrifts_answers_most_recent_first :
  forall (getStackDrifts :
            UUID -> Z -> Result (list (cloudstore_drifts.Drift D M)))
         (params : httprouter.Params) (n : Z),
    Atoi (httprouter.ByName params "stackid") = (n, None) ->
    match getStackDrifts (httprouter.ByName params "orguuid") n with
    | Ok stored =>
        exists res : list (cloud_drifts.Drift D M),
          drifts.GetStackDrifts getStackDrifts params
          = {| drifts.Code := Some http.StatusOK;
               drifts.Header := [("Content-Type", "application/json")];
               drifts.Out := [drifts.WDrifts res] |}
          /\ Permutation res (map drifts.toDrift stored)
          /\ StronglySorted
               (fun a b => cloud_drifts.ID b <= cloud_drifts.ID a) res
    | Err e =>
        drifts.GetStackDrifts getStackDrifts params
        = {| drifts.Code := Some http.StatusInternalServerError;
             drifts.Header := [];
             drifts.Out := [drifts.WErr (drifts.StoreProblem e)] |}
    end.
Proof.
  intros getStackDrifts params n HA.
  unfold drifts.GetStackDrifts. rewrite HA.
  destruct (getStackDrifts (httprouter.ByName params "orguuid") n)
    as [stored | e].
  - exists (drifts.sortMostRecentFirst (map drifts.toDrift stored)).
    split; [reflexivity |]. split.
    + apply sortMostRecentFirst_perm.
    + apply sortMostRecentFirst_sorted.
  - reflexivity.
Qed.

End DriftFacts.

(** ** The sandbox layout *)

Lemma sliceTo_app (file rest : string) :
  sandbox.sliceTo (file ++ rest)%string (String.length file) = Some file.
Proof.
  induction file as [| c file IH]; simpl.
  - reflexivity.
  - rewrite IH. reflexivity.
Qed.

Lemma IndexByte_ge (s : string) (c : ascii) : -1 <= sandbox.IndexByte s c.
Proof.
  induction s as [| a rest IH]; simpl; [lia |].
  destruct (Ascii.eqb a c); [lia |].
  destruct (sandbox.IndexByte rest c <? 0) eqn:E; [lia |].
  apply Z.ltb_ge in E. lia.
Qed.

Lemma IndexByte_app (file rest : string) (c : ascii) :
  sandbox.IndexByte file c = -1 ->
  sandbox.IndexByte (file ++ String c rest)%string c
  = Z.of_nat (String.length file).
Proof.
  induction file as [| a file IH]; simpl; intro H.
  - rewrite Ascii.eqb_refl. reflexivity.
  - destruct (Ascii.eqb a c); [discriminate H |].
    destruct (sandbox.IndexByte file c <? 0) eqn:E.
    + apply Z.ltb_lt in E. pose proof (IndexByte_ge file c).
      rewrite IH by lia.
      destruct (Z.of_nat (String.length file) <? 0) eqn:E2;
        [apply Z.ltb_lt in E2; lia | lia].
    + apply Z.ltb_ge in E. lia.
Qed.

(** X19.  A file entry of a layout, "f", any one character, a file name
    without a colon, a colon and the content, makes BuildTree write
    exactly that content to exactly that file under the base directory.
    The name ends at the first colon: the content may hold colons. *)
Theorem BuildTree_file_entry :
  forall (basedir file content : string) (sep : ascii),
    sandbox.IndexByte file ":"%char = -1 ->
    sandbox.BuildTree basedir
      [String "f"%char (String sep (file ++ String ":"%char content))]
    = sandbox.Done [sandbox.WriteFile basedir file content].
Proof.
  intros basedir file content sep Hfile.
  unfold sandbox.BuildTree, sandbox.buildSpec.
  cbn [Ascii.eqb Bool.eqb sandbox.sliceFrom].
  rewrite (IndexByte_app file content ":"%char Hfile).
  destruct (Z.of_nat (String.length file) <? 0) eqn:E;
    [apply Z.ltb_lt in E; lia |].
  rewrite Nat2Z.id.
  replace (Z.to_nat (Z.of_nat (String.length file) + 1))
    with (S (String.length file)) by lia.
  rewrite sliceTo_app.
  assert (Hfrom : sandbox.sliceFrom (file ++ String ":"%char content)%string
                    (S (String.length file)) = Some content).
  { clear. induction file as [| c file IH]; simpl.
    - destruct content; reflexivity.
    - exact IH. }
  rewrite Hfrom. reflexivity.
Qed.

(** X20.  Entries BuildTree cannot read.  A file entry without a colon
    after the file name, that is without content, panics on the slice
    [tmp[0:index]] with index -1; so does the empty entry, on [spec[0]],
    and a one-character entry of a known kind, on [spec[2:]].  An entry of
    any other kind ends the test with "unknown tree identifier", however
    short it is. *)
Theorem BuildTree_entries_it_cannot_read :
  forall (basedir : string),
    (forall (sep : ascii) (tmp : string),
       sandbox.IndexByte tmp ":"%char = -1 ->
       sandbox.BuildTree basedir [String "f"%char (String sep tmp)]
       = sandbox.Panic [])
    /\ sandbox.BuildTree basedir [""] = sandbox.Panic []
    /\ sandbox.BuildTree basedir ["d"] = sandbox.Panic []
    /\ sandbox.BuildTree basedir ["s"] = sandbox.Panic []
    /\ sandbox.BuildTree basedir ["f"] = sandbox.Panic []
    /\ (forall (kind : ascii) (rest : string),
          kind <> "d"%char -> kind <> "s"%char -> kind <> "f"%char ->
          sandbox.BuildTree basedir [String kind rest]
          = sandbox.Failed [] (sandbox.UnknownTreeIdentifier kind)).
Proof.
  intro basedir. split; [| repeat split].
  - intros sep tmp Hno. unfold sandbox.BuildTree, sandbox.buildSpec.
    cbn [Ascii.eqb Bool.eqb sandbox.sliceFrom]. rewrite Hno. reflexivity.
  - intros kind rest Hd Hs Hf.
    apply Ascii.eqb_neq in Hd, Hs, Hf.
    unfold sandbox.BuildTree, sandbox.buildSpec.
    rewrite Hd, Hs, Hf. reflexivity.
Qed.

Lemma andThen_Done_nil (r : sandbox.Run) :
  sandbox.andThen r (sandbox.Done []) = r.
Proof. destruct r; simpl; rewrite ?app_nil_r; reflexivity. Qed.

Lemma andThen_assoc (a b c : sandbox.Run) :
  sandbox.andThen (sandbox.andThen a b) c
  = sandbox.andThen a (sandbox.andThen b c).
Proof.
  destruct a as [oa | oa wa | oa]; simpl; [| reflexivity | reflexivity].
  destruct b as [ob | ob wb | ob]; simpl; [| reflexivity | reflexivity].
  destruct c as [oc | oc wc | oc]; simpl; rewrite app_assoc; reflexivity.
Qed.

Lemma BuildTree_app (basedir : string) (l1 l2 : list string) :
  sandbox.BuildTree basedir (l1 ++ l2)
  = sandbox.andThen (sandbox.BuildTree basedir l1)
                    (sandbox.BuildTree basedir l2).
Proof.
  induction l1 as [| spec rest IH]; simpl.
  - destruct (sandbox.BuildTree basedir l2); reflexivity.
  - rewrite IH, andThen_assoc. reflexivity.
Qed.

(** X21.  BuildTree works through a layout in order.  The operations of a
    layout that is read to its end are those of its first part followed by
    those of the rest; when an entry ends the test or panics, the
    operations done before it stay done and no later entry is looked
    at. *)
Theorem BuildTree_runs_in_order_and_stops :
  forall (basedir : string) (l1 l2 : list string),
    (forall ops1 ops2,
       sandbox.BuildTree basedir l1 = sandbox.Done ops1 ->
       sandbox.BuildTree basedir l2 = sandbox.Done ops2 ->
       sandbox.BuildTree basedir (l1 ++ l2) = sandbox.Done (ops1 ++ ops2))
    /\ (forall ops why,
          sandbox.BuildTree basedir l1 = sandbox.Failed ops why ->
          sandbox.BuildTree basedir (l1 ++ l2) = sandbox.Failed ops why)
    /\ (forall ops,
          sandbox.BuildTree basedir l1 = sandbox.Panic ops ->
          sandbox.BuildTree basedir (l1 ++ l2) = sandbox.Panic ops)
    /\ (forall ops1 ops2 why,
          sandbox.BuildTree basedir l1 = sandbox.Done ops1 ->
          sandbox.BuildTree basedir l2 = sandbox.Failed ops2 why ->
          sandbox.BuildTree basedir (l1 ++ l2)
          = sandbox.Failed (ops1 ++ ops2) why).
Proof.
  intros basedir l1 l2. rewrite BuildTree_app.
  split; [| split; [| split]].
  - intros ops1 ops2 H1 H2. rewrite H1, H2. reflexivity.
  - intros ops why H1. rewrite H1. reflexivity.
  - intros ops H1. rewrite H1. reflexivity.
  - intros ops1 ops2 why H1 H2. rewrite H1, H2. reflexivity.
Qed.

(** X22.  A stack entry creates the directory and then initializes the
    stack in it, unless its path is absolute: then the test ends with
    "CreateStack() needs a relative path" and nothing is created.  A
    directory entry has no such check.  In both, the character after the
    kind is not looked at. *)
Theorem BuildTree_stack_and_directory_entries :
  forall (basedir rel : string) (sep : ascii),
    sandbox.BuildTree basedir [String "d"%char (String sep rel)]
    = sandbox.Done [sandbox.MkdirAll basedir rel]
    /\ (sandbox.IsAbs rel = false ->
        sandbox.BuildTree basedir [String "s"%char (String sep rel)]
        = sandbox.Done [sandbox.MkdirAll basedir rel;
                        sandbox.Init basedir rel])
    /\ (sandbox.IsAbs rel = true ->
        sandbox.BuildTree basedir [String "s"%char (String sep rel)]
        = sandbox.Failed []
            (sandbox.NeedsRelativePath "CreateStack" rel)).
Proof.
  intros basedir rel sep. split; [reflexivity |].
  split; intro Habs;
    unfold sandbox.BuildTree, sandbox.buildSpec, sandbox.CreateStack;
    cbn [Ascii.eqb Bool.eqb sandbox.sliceFrom]; rewrite Habs; reflexivity.
Qed.

(** ** Further witnesses *)

Lemma unknown_organization_not_found_witness :
  serve (@GetStacks sample.externals (sample.query "unhealthy")
           [("orguuid", "nobody")]) sample.healthyStore
  = (Returned,
     {| w := answered http.StatusNotFound []
               [http.WString "organization not found"];
        store := sample.healthyStore;
        calls := [CallGetOrg "nobody"] |}).
Proof.
  apply (@unknown_organization_not_found sample.externals
           sample.healthyStore (sample.query "unhealthy")
           [("orguuid", "nobody")] []).
  reflexivity.
Defined.

Lemma healthyOrg_valid :
  Forall (fun st => validateStackStatus st = true)
         (cloudstore.Stacks sample_more.healthyOrg).
Proof. repeat constructor. Defined.

Lemma listing_holds_the_stacks_that_pass_witness :
  exists resp : list cloud.StackResponse,
    listedStacks
      (w (snd (serve (@GetStacks sample.externals (sample.query "failed")
                        sample.org) sample.healthyStore))) = Some resp
    /\ In (StackResponseOf 2
             (sample.stored "s3" stack.Failed deployment.Failed drift.Unknown))
          resp.
Proof.
  destruct (@listing_holds_the_stacks_that_pass sample.externals
              sample.healthyStore (sample.query "failed") sample.org
              sample_more.healthyOrg eq_refl (or_intror eq_refl) healthyOrg_valid)
    as (resp & _ & Hresp & Hin).
  exists resp. split; [exact Hresp |].
  apply Hin.
  exists (sample.stored "s3" stack.Failed deployment.Failed drift.Unknown).
  split; [reflexivity |]. split; [reflexivity |].
  split; [right; discriminate |].
  split; left; reflexivity.
Defined.

Lemma listing_in_increasing_id_order_witness :
  exists resp : list cloud.StackResponse,
    listedStacks
      (w (snd (serve (@GetStacks sample.externals (sample.query "unhealthy")
                        sample.org) sample.healthyStore))) = Some resp
    /\ NoDup (map cloud.ID resp).
Proof.
  destruct (@listing_in_increasing_id_order sample.externals
              sample.healthyStore (sample.query "unhealthy") sample.org
              sample_more.healthyOrg eq_refl (or_intror eq_refl) healthyOrg_valid)
    as (resp & Hresp & _ & Hnd & _).
  exists resp. split; assumption.
Defined.

Lemma unfiltered_listing_is_complete_witness :
  exists resp : list cloud.StackResponse,
    listedStacks
      (w (snd (serve (@GetStacks sample.externals (sample.query "")
                        sample.org) sample.healthyStore))) = Some resp
    /\ List.length resp = 3%nat.
Proof.
  destruct (@unfiltered_listing_is_complete sample.externals
              sample.healthyStore (sample.query "") sample.org
              sample_more.healthyOrg eq_refl eq_refl eq_refl eq_refl healthyOrg_valid)
    as (resp & Hresp & Hlen & _).
  exists resp. split; assumption.
Defined.


Lemma PutStack_rejects_bad_body_witness :
  serve (@PutStack sample.externals (sample.query "") sample.org)
        sample.healthyStore
  = (Returned,
     {| w := answered http.StatusInternalServerError [] [];
        store := sample.healthyStore; calls := [] |})
  /\ serve (@PutStack sample.externals (sample.put "{") sample.org)
           sample.healthyStore
     = (Returned,
        {| w := answered http.StatusBadRequest [] [http.WErr ErrUnmarshal];
           store := sample.healthyStore; calls := [] |}).
Proof.
  split.
  - apply (proj1 (@PutStack_rejects_bad_body sample.externals
                    sample.healthyStore (sample.query "") sample.org)).
    reflexivity.
  - apply (proj2 (@PutStack_rejects_bad_body sample.externals
                    sample.healthyStore (sample.put "{") sample.org) "{");
      reflexivity.
Defined.

Lemma PostDeploymentLogs_appends_for_indexed_stack_witness :
  fst (serve (@PostDeploymentLogs sample.externals (sample.put "one line")
                (sample.logsOf "1")) sample.healthyStore)
  = Next tt
  /\ calls (snd (serve (@PostDeploymentLogs sample.externals
                          (sample.put "one line") (sample.logsOf "1"))
                       sample.healthyStore))
     = [ CallGetOrg "terramate";
         CallInsertDeploymentLogs "terramate" "s2" "deploy-1"
           [sample.logLine 1 "hello"] ].
Proof.
  pose proof (@PostDeploymentLogs_appends_for_indexed_stack sample.externals
                sample.healthyStore (sample.put "one line")
                (sample.logsOf "1") 1 sample_more.healthyOrg
                (sample.stored "s2" stack.Drifted deployment.OK drift.Drifted)
                "one line" [sample.logLine 1 "hello"]
                eq_refl eq_refl eq_refl eq_refl eq_refl) as H.
  hnf in H. rewrite H. split; reflexivity.
Defined.

Lemma PostDeploymentLogs_rejects_bad_body_witness :
  serve (@PostDeploymentLogs sample.externals (sample.put "{")
           (sample.logsOf "0")) sample.healthyStore
  = (Returned,
     {| w := answered http.StatusBadRequest [] [];
        store := sample.healthyStore;
        calls := [CallGetOrg "terramate"] |}).
Proof.
  apply (proj2 (@PostDeploymentLogs_rejects_bad_body sample.externals
                  sample.healthyStore (sample.put "{") (sample.logsOf "0")
                  0 sample_more.healthyOrg
                  (sample.stored "s1" stack.OK deployment.OK drift.OK)
                  eq_refl eq_refl eq_refl) "{"); reflexivity.
Defined.

Lemma GetDeploymentLogs_fetches_from_line_zero_witness :
  calls (snd (serve (@GetDeploymentLogs sample.externals (sample.logsOf "0"))
                    sample.healthyStore))
  = [ CallGetOrg "terramate";
      CallGetDeploymentLogs "terramate" "s1" "deploy-1" 0 ]
  /\ w (snd (serve (@GetDeploymentLogs sample.externals (sample.logsOf "0"))
                   sample.healthyStore))
     = answered http.StatusOK []
         [http.WLogs [sample.logLine 1 "init"; sample.logLine 2 "apply"]].
Proof.
  destruct (@GetDeploymentLogs_fetches_from_line_zero sample.externals
              sample.healthyStore (sample.logsOf "0") 0
              sample_more.healthyOrg
              (sample.stored "s1" stack.OK deployment.OK drift.OK)
              eq_refl eq_refl eq_refl) as [Hcalls Hans].
  split; [exact Hcalls |]. hnf in Hans. exact (proj2 Hans).
Defined.

Lemma missing_stackid_is_bad_request_witness :
  serve (@GetDeploymentLogs sample.externals [("orguuid", "terramate")])
        sample.healthyStore
  = (Returned,
     {| w := answered http.StatusBadRequest [] [];
        store := sample.healthyStore; calls := [] |}).
Proof.
  apply (@missing_stackid_is_bad_request sample.externals
           sample.healthyStore (sample.query "")
           [("orguuid", "terramate")] []).
  reflexivity.
Defined.

Lemma live_tail_counts_lines_written_witness :
  exists lines : cloud.DeploymentLogs,
    logLinesOf
      (http.Out
         (w (snd (@tailLoop sample.externals [fun d => d; fun d => d]
                    "terramate" "s1" "deploy-1" 0
                    {| w := http.newResponseWriter;
                       store := sample.healthyStore;
                       calls := [] |}))))
    = lines
    /\ 2 = 0 + len lines.
Proof.
  exact (@live_tail_counts_lines_written sample.externals
           [fun d => d; fun d => d] "terramate" "s1" "deploy-1" 0 2
           {| w := http.newResponseWriter;
              store := sample.healthyStore;
              calls := [] |} eq_refl).
Defined.

Lemma live_tail_of_a_static_log_witness :
  http.Out
    (w (snd (@tailLoop sample.externals
               [fun d => d; fun d => d; fun d => d]
               "terramate" "s1" "deploy-1" 0
               {| w := http.newResponseWriter;
                  store := sample.healthyStore;
                  calls := [] |})))
  = [ http.WLogLine (sample.logLine 1 "init");
      http.WLogLine (sample.logLine 2 "apply");
      http.WPing; http.WPing ].
Proof.
  apply (@live_tail_of_a_static_log sample.externals
           [fun d => d; fun d => d; fun d => d]
           "terramate" "s1" "deploy-1"
           [sample.logLine 1 "init"; sample.logLine 2 "apply"]
           {| w := http.newResponseWriter;
              store := sample.healthyStore;
              calls := [] |}).
  - repeat constructor.
  - intros line Hline. reflexivity.
  - discriminate.
Defined.


Lemma GetStackDrifts_rejects_bad_stackid_witness :
  drifts.GetStackDrifts sample_more.getStackDrifts
    [("orguuid", "terramate"); ("stackid", "")]
  = {| drifts.Code := Some http.StatusBadRequest;
       drifts.Header := [];
       drifts.Out := [drifts.WErr (drifts.InvalidStackid (ErrSyntax ""))] |}.
Proof.
  apply (GetStackDrifts_rejects_bad_stackid unit unit
           sample_more.getStackDrifts
           [("orguuid", "terramate"); ("stackid", "")] 0 (ErrSyntax "")).
  reflexivity.
Defined.

Lemma GetStackDrifts_answers_most_recent_first_witness :
  exists res : list (cloud_drifts.Drift unit unit),
    drifts.GetStackDrifts sample_more.getStackDrifts
      [("orguuid", "terramate"); ("stackid", "0")]
    = {| drifts.Code := Some http.StatusOK;
         drifts.Header := [("Content-Type", "application/json")];
         drifts.Out := [drifts.WDrifts res] |}
    /\ map cloud_drifts.ID res = [3; 2; 1].
Proof.
  pose proof (GetStackDrifts_answers_most_recent_first unit unit
                sample_more.getStackDrifts
                [("orguuid", "terramate"); ("stackid", "0")] 0 eq_refl)
    as H.
  hnf in H. destruct H as (res & Hrun & _ & _).
  exists res. split; [exact Hrun |].
  cbv in Hrun. injection Hrun as <-. reflexivity.
Defined.

Lemma BuildTree_file_entry_witness :
  sandbox.BuildTree "/tmp/sandbox" ["f:stack/main.tf:# a: b"]
  = sandbox.Done [sandbox.WriteFile "/tmp/sandbox" "stack/main.tf" "# a: b"].
Proof.
  apply (BuildTree_file_entry "/tmp/sandbox" "stack/main.tf" "# a: b"
           ":"%char).
  reflexivity.
Defined.

Lemma BuildTree_entries_it_cannot_read_witness :
  sandbox.BuildTree "/tmp/sandbox" ["f:stack/main.tf"] = sandbox.Panic []
  /\ sandbox.BuildTree "/tmp/sandbox" ["x:stack"]
     = sandbox.Failed [] (sandbox.UnknownTreeIdentifier "x"%char).
Proof.
  split.
  - apply (proj1 (BuildTree_entries_it_cannot_read "/tmp/sandbox")
             ":"%char "stack/main.tf").
    reflexivity.
  - apply (proj2 (proj2 (proj2 (proj2 (proj2
             (BuildTree_entries_it_cannot_read "/tmp/sandbox")))))
             "x"%char ":stack"); discriminate.
Defined.

Lemma BuildTree_runs_in_order_and_stops_witness :
  sandbox.BuildTree "/tmp/sandbox" (["d:mod"; "x"] ++ ["s:stack"])
  = sandbox.Failed [sandbox.MkdirAll "/tmp/sandbox" "mod"]
      (sandbox.UnknownTreeIdentifier "x"%char)
  /\ sandbox.BuildTree "/tmp/sandbox" (["d:mod"] ++ ["s:stack"])
     = sandbox.Done ([sandbox.MkdirAll "/tmp/sandbox" "mod"]
                     ++ [sandbox.MkdirAll "/tmp/sandbox" "stack";
                         sandbox.Init "/tmp/sandbox" "stack"]).
Proof.
  split.
  - apply (proj1 (proj2 (BuildTree_runs_in_order_and_stops "/tmp/sandbox"
                           ["d:mod"; "x"] ["s:stack"]))).
    reflexivity.
  - apply (proj1 (BuildTree_runs_in_order_and_stops "/tmp/sandbox"
                    ["d:mod"] ["s:stack"])); reflexivity.
Defined.

Lemma BuildTree_stack_and_directory_entries_witness :
  sandbox.BuildTree "/tmp/sandbox" ["s:/etc"]
  = sandbox.Failed [] (sandbox.NeedsRelativePath "CreateStack" "/etc")
  /\ sandbox.BuildTree "/tmp/sandbox" ["s:s1:id=s1"]
     = sandbox.Done [sandbox.MkdirAll "/tmp/sandbox" "s1:id=s1";
                     sandbox.Init "/tmp/sandbox" "s1:id=s1"].
Proof.
  split.
  - apply (proj2 (proj2 (BuildTree_stack_and_directory_entries
                           "/tmp/sandbox" "/etc" ":"%char))).
    reflexivity.
  - apply (proj1 (proj2 (BuildTree_stack_and_directory_entries
                           "/tmp/sandbox" "s1:id=s1" ":"%char))).
    reflexivity.
Defined.

Lemma PostDeploymentLogs_bad_stackid_witness :
  serve (@PostDeploymentLogs sample.externals (sample.put "one line")
           (sample.logsOf "12x")) sample.healthyStore
  = (Returned,
     {| w := answered http.StatusBadRequest [] [http.WErr (ErrSyntax "12x")];
        store := sample.healthyStore;
        calls := [] |}).
Proof.
  apply (@PostDeploymentLogs_bad_stackid sample.externals
           sample.healthyStore (sample.put "one line") (sample.logsOf "12x")
           0 (ErrSyntax "12x")).
  - discriminate.
  - reflexivity.
Defined.
